(** * Auth blocking triggers: validation, option merging and registration

    A shallow embedding of [src/deploy/functions/services/authBlocking.ts]:

    - [ensureAuthBlockingTriggerIsValid] rejects a second blocking endpoint
      for one event type and merges the token-forwarding options of the
      endpoint into the backend that is being deployed;
    - [copyIdentityPlatformOptionsToEndpoint] copies the merged options back
      onto an endpoint;
    - [registerAuthBlockingTriggerToIdentityPlatform] and
      [unregisterAuthBlockingTriggerFromIdentityPlatform] read, patch and
      write back the blocking-functions config of identity platform.

    Mutation of [wantBackend] and the calls to identity platform are state
    effects, [throw new FirebaseError] is an error effect; both live in the
    monad [Eff]. *)

From stdpp Require Import base option list strings gmap.

Open Scope string_scope.

(** ** Errors and effects *)

(** What can be thrown: a [FirebaseError] with its message, or the
    [TypeError] of the runtime when a property of [undefined] is read. *)
Inductive Exception :=
  | FirebaseError (message : string)
  | TypeError.

(** How a call ends: with a value, or with a thrown error. *)
Inductive Completion (A : Type) : Type :=
  | Returned (a : A)
  | Thrown (e : Exception).
Arguments Returned {A} a.
Arguments Thrown {A} e.

(** A computation over a mutable state [S]: the state threads through, and
    a throw keeps the state as it was at the throw. *)
Definition Eff (S A : Type) : Type := S → Completion A * S.

Definition ret {S A} (a : A) : Eff S A := λ s, (Returned a, s).

Definition bind {S A B} (m : Eff S A) (k : A → Eff S B) : Eff S B :=
  λ s, match m s with
       | (Returned a, s') => k a s'
       | (Thrown e, s') => (Thrown e, s')
       end.

Definition throw {S A} (e : Exception) : Eff S A := λ s, (Thrown e, s).
Definition getState {S} : Eff S S := λ s, (Returned s, s).
Definition modify {S} (f : S → S) : Eff S unit := λ s, (Returned tt, f s).

Notation "'let!' x ':=' m 'in' k" := (bind m (λ x, k))
  (at level 10, x name, m at level 100, k at level 200).
Notation "m ';;;' k" := (bind m (λ _, k))
  (at level 100, k at level 200, right associativity).

(** [for (const x of l) await f(x)]: stops at the first throw. *)
Fixpoint forEach {S A} (f : A → Eff S unit) (l : list A) : Eff S unit :=
  match l with
  | [] => ret tt
  | x :: l' => f x ;;; forEach f l'
  end.

(** ** JavaScript values *)

(** [x || false] on an optional boolean. *)
Definition orFalse (x : option bool) : bool := default false x.

(** [b.toString()] on a boolean. *)
Definition toString (b : bool) : string := if b then "true" else "false".

(** Truthiness of an optional string: [undefined] and the empty string are
    falsy. *)
Definition truthy (x : option string) : bool :=
  match x with
  | Some s => bool_decide (s ≠ "")
  | None => false
  end.

(** ** [functions/events]: the event type names

    The module is imported by the source and holds string constants; their
    values are not part of this file, so the development is parametric in
    them. *)
Module events.

Record Version := MkVersion {
  BEFORE_CREATE_EVENT : string;
  BEFORE_SIGN_IN_EVENT : string;
}.

Record Names := MkNames { v1 : Version; v2 : Version }.

(** No before-create name is also a before-sign-in name. *)
Definition families_disjoint (E : Names) : Prop :=
  BEFORE_CREATE_EVENT (v1 E) ≠ BEFORE_SIGN_IN_EVENT (v1 E) ∧
  BEFORE_CREATE_EVENT (v1 E) ≠ BEFORE_SIGN_IN_EVENT (v2 E) ∧
  BEFORE_CREATE_EVENT (v2 E) ≠ BEFORE_SIGN_IN_EVENT (v1 E) ∧
  BEFORE_CREATE_EVENT (v2 E) ≠ BEFORE_SIGN_IN_EVENT (v2 E).


End events.

(** ** [deploy/functions/backend]: endpoints and the backend *)
Module backend.

(** [BlockingTrigger]: the event type and the three optional flags. *)
Record BlockingTrigger := MkBlockingTrigger {
  eventType : string;
  accessToken : option bool;
  idToken : option bool;
  refreshToken : option bool;
}.

(** The trigger of an endpoint: a blocking trigger, or one of the other
    kinds (https, callable, event, scheduled, ...), which carry nothing
    this file reads. *)
Inductive Triggered :=
  | BlockingTriggered (blockingTrigger : BlockingTrigger)
  | OtherTriggered.

Record Endpoint := MkEndpoint {
  id : string;
  project : string;
  uri : option string;
  trigger : Triggered;
}.

(** [Endpoint & BlockingTriggered]. *)
Record BlockingEndpoint := MkBlockingEndpoint {
  b_id : string;
  b_project : string;
  b_uri : option string;
  blockingTrigger : BlockingTrigger;
}.

(** [resourceOptions.identityPlatform]: the merged flags. *)
Record IdentityPlatformOptions := MkIdentityPlatformOptions {
  ip_accessToken : bool;
  ip_idToken : bool;
  ip_refreshToken : bool;
}.

Record ResourceOptions := MkResourceOptions {
  identityPlatform : option IdentityPlatformOptions;
}.

(** Modelled from the spec: the [Backend] type and [allEndpoints] are
    declared in [deploy/functions/backend], which is not part of this
    file's source; the spec describes a backend as a collection of
    endpoints plus shared resource options. *)
Record Backend := MkBackend {
  endpoints : list Endpoint;
  resourceOptions : ResourceOptions;
}.

Definition allEndpoints (b : Backend) : list Endpoint := endpoints b.

Definition isBlockingTriggered (ep : Endpoint) : bool :=
  match trigger ep with
  | BlockingTriggered _ => true
  | OtherTriggered => false
  end.

(** The cast [as (Endpoint & BlockingTriggered)]: defined on the endpoints
    [isBlockingTriggered] accepts. *)
Definition asBlocking (ep : Endpoint) : option BlockingEndpoint :=
  match trigger ep with
  | BlockingTriggered bt => Some (MkBlockingEndpoint (id ep) (project ep) (uri ep) bt)
  | OtherTriggered => None
  end.

(** A blocking endpoint seen as an endpoint again. *)
Definition ofBlocking (e : BlockingEndpoint) : Endpoint :=
  MkEndpoint (b_id e) (b_project e) (b_uri e) (BlockingTriggered (blockingTrigger e)).

End backend.

(** ** [gcp/identityPlatform]: the remote blocking-functions config *)
Module identityPlatform.

Record BlockingFunctionsEventDetails := MkDetails {
  functionUri : option string;
}.

Record Triggers := MkTriggers {
  beforeCreate : option BlockingFunctionsEventDetails;
  beforeSignIn : option BlockingFunctionsEventDetails;
}.

Record ForwardInboundCredentials := MkForward {
  idToken : string;
  accessToken : string;
  refreshToken : string;
}.

Record BlockingFunctionsConfig := MkConfig {
  triggers : option Triggers;
  forwardInboundCredentials : option ForwardInboundCredentials;
}.

(** The config [{}]. *)
Definition emptyConfig : BlockingFunctionsConfig := MkConfig None None.

(** The object [{}] in a trigger slot. *)
Definition emptyDetails : BlockingFunctionsEventDetails := MkDetails None.

(** [config.triggers?.beforeCreate] and [config.triggers?.beforeSignIn]. *)
Definition beforeCreateOf (c : BlockingFunctionsConfig) : option BlockingFunctionsEventDetails :=
  triggers c ≫= beforeCreate.
Definition beforeSignInOf (c : BlockingFunctionsConfig) : option BlockingFunctionsEventDetails :=
  triggers c ≫= beforeSignIn.

(** [slot?.functionUri]. *)
Definition functionUriOf (slot : option BlockingFunctionsEventDetails) : option string :=
  slot ≫= functionUri.

(** Modelled from the spec: the client of the remote service is declared
    in [gcp/identityPlatform], which is not part of this file's source.
    The spec gives its contract: [getBlockingFunctionsConfig] fetches the
    current remote state of a project, [setBlockingFunctionsConfig]
    persists a full replacement. The remote state is a map from project
    to config (a project with nothing stored reads as [{}]); every write
    call is logged, oldest first. *)
Record World := MkWorld {
  remote : gmap string BlockingFunctionsConfig;
  setCalls : list (string * BlockingFunctionsConfig);
}.

Definition configOf (w : World) (project : string) : BlockingFunctionsConfig :=
  default emptyConfig (remote w !! project).

Definition getBlockingFunctionsConfig (project : string) : Eff World BlockingFunctionsConfig :=
  λ w, (Returned (configOf w project), w).

Definition setBlockingFunctionsConfig (project : string) (c : BlockingFunctionsConfig)
  : Eff World unit :=
  modify (λ w, MkWorld (<[project := c]> (remote w)) (setCalls w ++ [(project, c)])).

End identityPlatform.

Import backend.

(** ** The functions of [authBlocking.ts] *)

(** Assignments to the fields of [wantBackend.resourceOptions.identityPlatform]
    and of [endpoint.blockingTrigger]. *)
Definition set_identityPlatform (o : option IdentityPlatformOptions) (b : Backend) : Backend :=
  MkBackend (endpoints b) (MkResourceOptions o).

Definition set_accessToken (v : option bool) (e : BlockingEndpoint) : BlockingEndpoint :=
  let bt := blockingTrigger e in
  MkBlockingEndpoint (b_id e) (b_project e) (b_uri e)
    (MkBlockingTrigger (eventType bt) v (backend.idToken bt) (backend.refreshToken bt)).

Definition set_idToken (v : option bool) (e : BlockingEndpoint) : BlockingEndpoint :=
  let bt := blockingTrigger e in
  MkBlockingEndpoint (b_id e) (b_project e) (b_uri e)
    (MkBlockingTrigger (eventType bt) (backend.accessToken bt) v (backend.refreshToken bt)).

Definition set_refreshToken (v : option bool) (e : BlockingEndpoint) : BlockingEndpoint :=
  let bt := blockingTrigger e in
  MkBlockingEndpoint (b_id e) (b_project e) (b_uri e)
    (MkBlockingTrigger (eventType bt) (backend.accessToken bt) (backend.idToken bt) v).

(** [wantBackend.resourceOptions.identityPlatform.f ||= v], for the three
    fields [f]: a [TypeError] when [identityPlatform] is [undefined]. *)
Definition orAssign (upd : IdentityPlatformOptions → IdentityPlatformOptions)
  : Eff Backend unit :=
  λ wantBackend,
    match identityPlatform (resourceOptions wantBackend) with
    | Some ip => (Returned tt, set_identityPlatform (Some (upd ip)) wantBackend)
    | None => (Thrown TypeError, wantBackend)
    end.

Definition orAssign_accessToken (v : bool) : Eff Backend unit :=
  orAssign (λ ip, MkIdentityPlatformOptions
                    (if ip_accessToken ip then ip_accessToken ip else v)
                    (ip_idToken ip) (ip_refreshToken ip)).

Definition orAssign_idToken (v : bool) : Eff Backend unit :=
  orAssign (λ ip, MkIdentityPlatformOptions
                    (ip_accessToken ip)
                    (if ip_idToken ip then ip_idToken ip else v)
                    (ip_refreshToken ip)).

Definition orAssign_refreshToken (v : bool) : Eff Backend unit :=
  orAssign (λ ip, MkIdentityPlatformOptions
                    (ip_accessToken ip) (ip_idToken ip)
                    (if ip_refreshToken ip then ip_refreshToken ip else v)).

(** The blocking endpoints of a backend: the filter, then the cast. *)
Definition blockingEndpointsOf (wantBackend : Backend) : list BlockingEndpoint :=
  omap asBlocking (filter (λ ep, isBlockingTriggered ep) (allEndpoints wantBackend)).

(** The test of [find]: same event type, another id. *)
Definition clashes (endpoint ep : BlockingEndpoint) : bool :=
  bool_decide (eventType (blockingTrigger ep) = eventType (blockingTrigger endpoint))
  && bool_decide (b_id ep ≠ b_id endpoint).

Definition duplicateTriggerMessage (endpoint : BlockingEndpoint) : string :=
  "Can only create at most one Auth Blocking Trigger for "
  +:+ eventType (blockingTrigger endpoint) +:+ " events".

Definition ensureAuthBlockingTriggerIsValid (endpoint : BlockingEndpoint)
  : Eff Backend unit :=
  let! wantBackend := getState in
  let blockingEndpoints := blockingEndpointsOf wantBackend in
  if find (clashes endpoint) blockingEndpoints is Some _ then
    throw (FirebaseError (duplicateTriggerMessage endpoint))
  else
    (if identityPlatform (resourceOptions wantBackend) is Some _ then ret tt
     else modify (set_identityPlatform
                    (Some (MkIdentityPlatformOptions false false false)))) ;;;
    orAssign_accessToken (orFalse (backend.accessToken (blockingTrigger endpoint))) ;;;
    orAssign_idToken (orFalse (backend.idToken (blockingTrigger endpoint))) ;;;
    orAssign_refreshToken (orFalse (backend.refreshToken (blockingTrigger endpoint))).

Definition copyIdentityPlatformOptionsToEndpoint
  (endpoint : BlockingEndpoint) (wantBackend : Backend) : BlockingEndpoint :=
  let ip := identityPlatform (resourceOptions wantBackend) in
  let endpoint := set_accessToken (Some (orFalse (ip_accessToken <$> ip))) endpoint in
  let endpoint := set_idToken (Some (orFalse (ip_idToken <$> ip))) endpoint in
  set_refreshToken (Some (orFalse (ip_refreshToken <$> ip))) endpoint.

Import identityPlatform.

(** Assignments to the fields of the fetched [blockingConfig]. *)
Definition set_triggers (t : Triggers) (c : BlockingFunctionsConfig) : BlockingFunctionsConfig :=
  MkConfig (Some t) (forwardInboundCredentials c).

Definition set_forwardInboundCredentials (f : ForwardInboundCredentials)
  (c : BlockingFunctionsConfig) : BlockingFunctionsConfig :=
  MkConfig (triggers c) (Some f).

Section Registrar.

(** The event type names of [functions/events]. *)
Variable E : events.Names.

(** The two tests of the dispatch on the event type. *)
Definition isBeforeCreate (eventType : string) : bool :=
  bool_decide (eventType = events.BEFORE_CREATE_EVENT (events.v1 E))
  || bool_decide (eventType = events.BEFORE_CREATE_EVENT (events.v2 E)).

Definition isBeforeSignIn (eventType : string) : bool :=
  bool_decide (eventType = events.BEFORE_SIGN_IN_EVENT (events.v1 E))
  || bool_decide (eventType = events.BEFORE_SIGN_IN_EVENT (events.v2 E)).

Definition registerAuthBlockingTriggerToIdentityPlatform
  (endpoint : BlockingEndpoint) (update : bool) : Eff World unit :=
  let! blockingConfig := getBlockingFunctionsConfig (b_project endpoint) in
  let! blockingConfig :=
    if isBeforeCreate (eventType (blockingTrigger endpoint)) then
      ret (set_triggers
             (MkTriggers (Some (MkDetails (b_uri endpoint)))
                         (beforeSignInOf blockingConfig))
             blockingConfig)
    else if isBeforeSignIn (eventType (blockingTrigger endpoint)) then
      ret (set_triggers
             (MkTriggers (beforeCreateOf blockingConfig)
                         (Some (MkDetails (b_uri endpoint))))
             blockingConfig)
    else throw (FirebaseError "Invalid auth blocking trigger type.") in
  let blockingConfig :=
    if negb update then
      set_forwardInboundCredentials
        (MkForward
           (toString (orFalse (backend.idToken (blockingTrigger endpoint))))
           (toString (orFalse (backend.accessToken (blockingTrigger endpoint))))
           (toString (orFalse (backend.refreshToken (blockingTrigger endpoint)))))
        blockingConfig
    else blockingConfig in
  setBlockingFunctionsConfig (b_project endpoint) blockingConfig.

(** The guard of unregistration: the slot holds no (or an empty) URI, or
    a URI that is not the endpoint's. *)
Definition notRegistered (endpoint : BlockingEndpoint)
  (slot : option BlockingFunctionsEventDetails) : bool :=
  negb (truthy (functionUriOf slot))
  || bool_decide (b_uri endpoint ≠ functionUriOf slot).

Definition unregisterAuthBlockingTriggerFromIdentityPlatform
  (endpoint : BlockingEndpoint) : Eff World unit :=
  let! blockingConfig := getBlockingFunctionsConfig (b_project endpoint) in
  if isBeforeCreate (eventType (blockingTrigger endpoint)) then
    if notRegistered endpoint (beforeCreateOf blockingConfig) then ret tt
    else
      let blockingConfig :=
        set_triggers
          (MkTriggers (Some emptyDetails) (beforeSignInOf blockingConfig))
          blockingConfig in
      setBlockingFunctionsConfig (b_project endpoint) blockingConfig
  else if isBeforeSignIn (eventType (blockingTrigger endpoint)) then
    if notRegistered endpoint (beforeSignInOf blockingConfig) then ret tt
    else
      let blockingConfig :=
        set_triggers
          (MkTriggers (beforeCreateOf blockingConfig) (Some emptyDetails))
          blockingConfig in
      setBlockingFunctionsConfig (b_project endpoint) blockingConfig
  else throw (FirebaseError "Invalid auth blocking trigger type").

End Registrar.

(** ** Reading outcomes *)

(** The two error kinds. *)
Definition isDuplicateTrigger (endpoint : BlockingEndpoint) (e : Exception) : Prop :=
  e = FirebaseError (duplicateTriggerMessage endpoint).

Definition isInvalidTriggerType (e : Exception) : Prop :=
  e = FirebaseError "Invalid auth blocking trigger type." ∨
  e = FirebaseError "Invalid auth blocking trigger type".

(** The two event type families, by the names of [functions/events]. *)
Definition beforeCreateFamily (E : events.Names) (eventType : string) : Prop :=
  eventType = events.BEFORE_CREATE_EVENT (events.v1 E) ∨
  eventType = events.BEFORE_CREATE_EVENT (events.v2 E).

Definition beforeSignInFamily (E : events.Names) (eventType : string) : Prop :=
  eventType = events.BEFORE_SIGN_IN_EVENT (events.v1 E) ∨
  eventType = events.BEFORE_SIGN_IN_EVENT (events.v2 E).

(** Field-wise logical OR of the requested flags of a list of endpoints. *)
Definition anyFlag (flag : BlockingTrigger → option bool) (l : list BlockingEndpoint) : bool :=
  existsb (λ ep, orFalse (flag (blockingTrigger ep))) l.

Definition mergedFlags (l : list BlockingEndpoint) : IdentityPlatformOptions :=
  MkIdentityPlatformOptions
    (anyFlag backend.accessToken l)
    (anyFlag backend.idToken l)
    (anyFlag backend.refreshToken l).

(** ** Vocabulary of the statements *)

(** The flags after one endpoint is merged into [ip]. *)
Definition orInto (ip : IdentityPlatformOptions) (endpoint : BlockingEndpoint)
  : IdentityPlatformOptions :=
  let bt := blockingTrigger endpoint in
  MkIdentityPlatformOptions
    (ip_accessToken ip || orFalse (backend.accessToken bt))
    (ip_idToken ip || orFalse (backend.idToken bt))
    (ip_refreshToken ip || orFalse (backend.refreshToken bt)).

Definition allFalse : IdentityPlatformOptions :=
  MkIdentityPlatformOptions false false false.

(** [identityPlatform?.f || false], for the three fields. *)
Definition optionsRead (wantBackend : Backend) : IdentityPlatformOptions :=
  let ip := identityPlatform (resourceOptions wantBackend) in
  MkIdentityPlatformOptions
    (orFalse (ip_accessToken <$> ip))
    (orFalse (ip_idToken <$> ip))
    (orFalse (ip_refreshToken <$> ip)).

(** The other variant of one family: v1 against v2, either way round. *)
Definition otherVariant (E : events.Names) (a b : string) : Prop :=
  (a = events.BEFORE_CREATE_EVENT (events.v1 E) ∧ b = events.BEFORE_CREATE_EVENT (events.v2 E)) ∨
  (a = events.BEFORE_CREATE_EVENT (events.v2 E) ∧ b = events.BEFORE_CREATE_EVENT (events.v1 E)) ∨
  (a = events.BEFORE_SIGN_IN_EVENT (events.v1 E) ∧ b = events.BEFORE_SIGN_IN_EVENT (events.v2 E)) ∨
  (a = events.BEFORE_SIGN_IN_EVENT (events.v2 E) ∧ b = events.BEFORE_SIGN_IN_EVENT (events.v1 E)).

(** The state after the validator has run over [l] without a clash. *)
Definition afterAll (l : list BlockingEndpoint) (wantBackend : Backend) : Backend :=
  match l with
  | [] => wantBackend
  | _ :: _ =>
      set_identityPlatform
        (Some (fold_left orInto l
                 (default allFalse (identityPlatform (resourceOptions wantBackend)))))
        wantBackend
  end.

Inductive Family := BeforeCreate | BeforeSignIn.

Definition otherFamily (f : Family) : Family :=
  match f with BeforeCreate => BeforeSignIn | BeforeSignIn => BeforeCreate end.

Definition inFamily (E : events.Names) (f : Family) (eventType : string) : Prop :=
  match f with
  | BeforeCreate => beforeCreateFamily E eventType
  | BeforeSignIn => beforeSignInFamily E eventType
  end.

(** The trigger slot of a family in a config. *)
Definition slotOf (f : Family) (c : BlockingFunctionsConfig)
  : option BlockingFunctionsEventDetails :=
  match f with
  | BeforeCreate => beforeCreateOf c
  | BeforeSignIn => beforeSignInOf c
  end.

(** The world after [setBlockingFunctionsConfig project c]. *)
Definition afterSet (project : string) (c : BlockingFunctionsConfig) (w : World) : World :=
  MkWorld (<[project := c]> (remote w)) (setCalls w ++ [(project, c)]).

(** The triggers object the two functions build: [slot] for the family, the
    fetched slot for the other family. *)
Definition triggersWith (f : Family) (slot : option BlockingFunctionsEventDetails)
  (c : BlockingFunctionsConfig) : Triggers :=
  match f with
  | BeforeCreate => MkTriggers slot (beforeSignInOf c)
  | BeforeSignIn => MkTriggers (beforeCreateOf c) slot
  end.

(** The flags of an endpoint in the wire format. *)
Definition forwardOf (endpoint : BlockingEndpoint) : ForwardInboundCredentials :=
  MkForward
    (toString (orFalse (backend.idToken (blockingTrigger endpoint))))
    (toString (orFalse (backend.accessToken (blockingTrigger endpoint))))
    (toString (orFalse (backend.refreshToken (blockingTrigger endpoint)))).

(** The config [registerAuthBlockingTriggerToIdentityPlatform] writes. *)
Definition registeredConfig (f : Family) (endpoint : BlockingEndpoint) (update : bool)
  (c : BlockingFunctionsConfig) : BlockingFunctionsConfig :=
  let c' := set_triggers (triggersWith f (Some (MkDetails (b_uri endpoint))) c) c in
  if update then c' else set_forwardInboundCredentials (forwardOf endpoint) c'.

(** The config [unregisterAuthBlockingTriggerFromIdentityPlatform] writes. *)
Definition unregisteredConfig (f : Family) (c : BlockingFunctionsConfig)
  : BlockingFunctionsConfig :=
  set_triggers (triggersWith f (Some emptyDetails) c) c.

(** Sample data for the instances below. *)
Definition sampleNames : events.Names :=
  events.MkNames (events.MkVersion "v1.beforeCreate" "v1.beforeSignIn")
                 (events.MkVersion "v2.beforeCreate" "v2.beforeSignIn").

Definition sampleEndpoint (id eventType : string) (uri : option string)
  (accessToken idToken refreshToken : option bool) : Endpoint :=
  MkEndpoint id "demo-project" uri
    (BlockingTriggered (MkBlockingTrigger eventType accessToken idToken refreshToken)).

Definition sampleBlocking (id eventType : string) (uri : option string)
  (accessToken idToken refreshToken : option bool) : BlockingEndpoint :=
  MkBlockingEndpoint id "demo-project" uri
    (MkBlockingTrigger eventType accessToken idToken refreshToken).

(** Sample worlds: nothing stored, and a config with both slots taken. *)
Definition emptyWorld : World := MkWorld ∅ [].

Definition takenConfig : BlockingFunctionsConfig :=
  MkConfig (Some (MkTriggers (Some (MkDetails (Some "https://a")))
                             (Some (MkDetails (Some "https://s")))))
           (Some (MkForward "true" "false" "false")).

Definition takenWorld : World :=
  MkWorld {[ "demo-project" := takenConfig ]} [].

(** Field-wise OR of two sets of merged flags. *)
Definition orOptions (a b : IdentityPlatformOptions) : IdentityPlatformOptions :=
  MkIdentityPlatformOptions
    (ip_accessToken a || ip_accessToken b)
    (ip_idToken a || ip_idToken b)
    (ip_refreshToken a || ip_refreshToken b).

(** Every flag [requested] asks for is set on [granted]. *)
Definition grantsRequests (requested granted : BlockingEndpoint) : Prop :=
  (orFalse (backend.accessToken (blockingTrigger requested)) = true →
   backend.accessToken (blockingTrigger granted) = Some true) ∧
  (orFalse (backend.idToken (blockingTrigger requested)) = true →
   backend.idToken (blockingTrigger granted) = Some true) ∧
  (orFalse (backend.refreshToken (blockingTrigger requested)) = true →
   backend.refreshToken (blockingTrigger granted) = Some true).

(** No endpoint of [l] meets, among the blocking endpoints of the plan, its
    event type under another id. *)
Definition clashFree (wantBackend : Backend) (l : list BlockingEndpoint) : Prop :=
  ∀ e ep, e ∈ l → ep ∈ blockingEndpointsOf wantBackend →
          eventType (blockingTrigger ep) = eventType (blockingTrigger e) →
          b_id ep = b_id e.

(** The branch the dispatch on the event type takes: the before-create
    test comes first; [None] is the final [else]. *)
Definition dispatchOf (E : events.Names) (eventType : string) : option Family :=
  if isBeforeCreate E eventType then Some BeforeCreate
  else if isBeforeSignIn E eventType then Some BeforeSignIn
  else None.

(** An endpoint with another event type, all else equal. *)
Definition withEventType (eventType : string) (e : BlockingEndpoint) : BlockingEndpoint :=
  let bt := blockingTrigger e in
  MkBlockingEndpoint (b_id e) (b_project e) (b_uri e)
    (MkBlockingTrigger eventType (backend.accessToken bt) (backend.idToken bt)
       (backend.refreshToken bt)).

(** ** The validator and the merge of the options *)

Lemma asBlocking_ofBlocking e : asBlocking (ofBlocking e) = Some e.
Proof. by destruct e. Qed.

Lemma elem_of_blockingEndpointsOf wantBackend e :
  e ∈ blockingEndpointsOf wantBackend ↔
  ∃ ep, ep ∈ allEndpoints wantBackend ∧ asBlocking ep = Some e.
Proof.
  unfold blockingEndpointsOf. rewrite list_elem_of_omap. split.
  - intros (ep & Hin & Hcast). apply list_elem_of_filter in Hin as [_ Hin]. eauto.
  - intros (ep & Hin & Hcast). exists ep. split; [|done].
    apply list_elem_of_filter. split; [|done].
    unfold asBlocking in Hcast. unfold isBlockingTriggered.
    by destruct (trigger ep).
Qed.

Lemma blockingEndpointsOf_set_identityPlatform o wantBackend :
  blockingEndpointsOf (set_identityPlatform o wantBackend) = blockingEndpointsOf wantBackend.
Proof. done. Qed.

Lemma clashes_true endpoint ep :
  clashes endpoint ep = true ↔
  eventType (blockingTrigger ep) = eventType (blockingTrigger endpoint) ∧
  b_id ep ≠ b_id endpoint.
Proof.
  unfold clashes. rewrite andb_true_iff, !bool_decide_eq_true. done.
Qed.

Lemma find_clashes_None endpoint l :
  find (clashes endpoint) l = None ↔
  ∀ ep, ep ∈ l →
        eventType (blockingTrigger ep) = eventType (blockingTrigger endpoint) →
        b_id ep = b_id endpoint.
Proof.
  split.
  - intros Hnone ep Hin Het.
    destruct (decide (b_id ep = b_id endpoint)) as [|Hne]; [done|].
    apply list_elem_of_In in Hin.
    pose proof (find_none _ _ Hnone ep Hin) as Hf.
    assert (clashes endpoint ep = true) as Ht by (by apply clashes_true).
    congruence.
  - intros Hall. destruct (find (clashes endpoint) l) as [ep|] eqn:Hf; [|done].
    apply find_some in Hf as [Hin Hc]. apply clashes_true in Hc as [Het Hne].
    apply list_elem_of_In in Hin. by specialize (Hall ep Hin Het).
Qed.

(** The throwing path: nothing is assigned before the throw. *)
Lemma ensure_throws endpoint wantBackend :
  is_Some (find (clashes endpoint) (blockingEndpointsOf wantBackend)) →
  ensureAuthBlockingTriggerIsValid endpoint wantBackend
  = (Thrown (FirebaseError (duplicateTriggerMessage endpoint)), wantBackend).
Proof.
  intros [ep Hf]. unfold ensureAuthBlockingTriggerIsValid, bind, getState; simpl.
  by rewrite Hf.
Qed.

(** The returning path: the options are initialised when absent, then the
    endpoint's flags are ORed in. *)
Lemma ensure_returns endpoint wantBackend :
  find (clashes endpoint) (blockingEndpointsOf wantBackend) = None →
  ensureAuthBlockingTriggerIsValid endpoint wantBackend
  = (Returned tt,
     set_identityPlatform
       (Some (orInto (default allFalse (identityPlatform (resourceOptions wantBackend)))
                     endpoint))
       wantBackend).
Proof.
  intros Hf. unfold ensureAuthBlockingTriggerIsValid, bind, getState; simpl.
  rewrite Hf. destruct wantBackend as [eps [[[a i r]|]]]; simpl.
  - unfold orInto; simpl. by destruct a, i, r.
  - done.
Qed.

(** The validator either returns or throws the duplicate trigger error. *)
Lemma ensure_cases endpoint wantBackend :
  (find (clashes endpoint) (blockingEndpointsOf wantBackend) = None ∧
   ensureAuthBlockingTriggerIsValid endpoint wantBackend
   = (Returned tt,
      set_identityPlatform
        (Some (orInto (default allFalse (identityPlatform (resourceOptions wantBackend)))
                      endpoint))
        wantBackend))
  ∨ (is_Some (find (clashes endpoint) (blockingEndpointsOf wantBackend)) ∧
     ensureAuthBlockingTriggerIsValid endpoint wantBackend
     = (Thrown (FirebaseError (duplicateTriggerMessage endpoint)), wantBackend)).
Proof.
  destruct (find (clashes endpoint) (blockingEndpointsOf wantBackend)) eqn:Hf.
  - right. split; [eauto|]. apply ensure_throws. rewrite Hf. eauto.
  - left. split; [done|]. by apply ensure_returns.
Qed.

(** C1: when the plan holds another blocking endpoint (another id) of the
    event type of [endpoint], [ensureAuthBlockingTriggerIsValid] throws the
    duplicate trigger error. *)
Theorem ensure_duplicate_trigger_throws
  (wantBackend : Backend) (endpoint : BlockingEndpoint)
  (other : Endpoint) (bt : BlockingTrigger) :
  other ∈ allEndpoints wantBackend →
  trigger other = BlockingTriggered bt →
  id other ≠ b_id endpoint →
  eventType bt = eventType (blockingTrigger endpoint) →
  ∃ err, (ensureAuthBlockingTriggerIsValid endpoint wantBackend).1 = Thrown err ∧
         isDuplicateTrigger endpoint err.
Proof.
  intros Hin Htrig Hid Het.
  exists (FirebaseError (duplicateTriggerMessage endpoint)). split; [|done].
  rewrite ensure_throws; [done|].
  destruct (find (clashes endpoint) (blockingEndpointsOf wantBackend)) eqn:Hf; [eauto|].
  exfalso. apply Hid.
  pose proof (proj1 (find_clashes_None _ _) Hf) as Hall.
  apply (Hall (MkBlockingEndpoint (id other) (project other) (uri other) bt)); [|done].
  apply elem_of_blockingEndpointsOf. exists other. split; [done|].
  unfold asBlocking. by rewrite Htrig.
Qed.

Lemma ensure_duplicate_trigger_throws_witness :
  ∃ err,
    (ensureAuthBlockingTriggerIsValid
       (sampleBlocking "a" "v1.beforeCreate" None None None None)
       (MkBackend [sampleEndpoint "a" "v1.beforeCreate" None None None None;
                   sampleEndpoint "b" "v1.beforeCreate" None None None None]
                  (MkResourceOptions None))).1 = Thrown err ∧
    isDuplicateTrigger (sampleBlocking "a" "v1.beforeCreate" None None None None) err.
Proof.
  apply (ensure_duplicate_trigger_throws _ _
           (sampleEndpoint "b" "v1.beforeCreate" None None None None)
           (MkBlockingTrigger "v1.beforeCreate" None None None)).
  - unfold allEndpoints; simpl. apply list_elem_of_In. right. by left.
  - reflexivity.
  - simpl. discriminate.
  - reflexivity.
Defined.

(** C10: when [ensureAuthBlockingTriggerIsValid] throws the duplicate
    trigger error, the backend, and with it the merged identity platform
    options, is as it was before the call; options that were absent stay
    absent. *)
Theorem ensure_duplicate_leaves_backend
  (endpoint : BlockingEndpoint) (wantBackend wantBackend' : Backend) (err : Exception) :
  ensureAuthBlockingTriggerIsValid endpoint wantBackend = (Thrown err, wantBackend') →
  isDuplicateTrigger endpoint err →
  wantBackend' = wantBackend ∧
  identityPlatform (resourceOptions wantBackend')
  = identityPlatform (resourceOptions wantBackend).
Proof.
  intros Hrun _.
  destruct (ensure_cases endpoint wantBackend) as [[_ Heq]|[_ Heq]];
    rewrite Heq in Hrun; [discriminate|].
  injection Hrun as _ <-. done.
Qed.

Lemma ensure_duplicate_leaves_backend_witness :
  let plan :=
    MkBackend [sampleEndpoint "a" "v1.beforeCreate" None (Some true) None None;
               sampleEndpoint "b" "v1.beforeCreate" None None None None]
              (MkResourceOptions None) in
  let endpoint := sampleBlocking "a" "v1.beforeCreate" None (Some true) None None in
  (ensureAuthBlockingTriggerIsValid endpoint plan).2 = plan ∧
  identityPlatform (resourceOptions (ensureAuthBlockingTriggerIsValid endpoint plan).2)
  = None.
Proof.
  intros plan endpoint.
  apply (ensure_duplicate_leaves_backend endpoint plan _
           (FirebaseError (duplicateTriggerMessage endpoint))).
  - reflexivity.
  - reflexivity.
Defined.


Lemma otherVariant_sym E a b : otherVariant E a b → otherVariant E b a.
Proof. unfold otherVariant. tauto. Qed.






(** *** Validating every blocking endpoint of a plan *)

Lemma set_identityPlatform_twice o o' wantBackend :
  set_identityPlatform o (set_identityPlatform o' wantBackend)
  = set_identityPlatform o wantBackend.
Proof. done. Qed.

Lemma forEach_ensure_returns l : ∀ wantBackend,
  (∀ e, e ∈ l → find (clashes e) (blockingEndpointsOf wantBackend) = None) →
  forEach ensureAuthBlockingTriggerIsValid l wantBackend
  = (Returned tt, afterAll l wantBackend).
Proof.
  induction l as [|x l IH]; intros wantBackend Hok; [done|].
  simpl. unfold bind at 1.
  rewrite ensure_returns by (apply Hok; left).
  rewrite IH.
  - f_equal. destruct l as [|y l]; [done|].
    unfold afterAll. by rewrite set_identityPlatform_twice.
  - intros e He. rewrite blockingEndpointsOf_set_identityPlatform.
    apply Hok. by right.
Qed.

Lemma fold_left_orInto l : ∀ ip,
  fold_left orInto l ip
  = MkIdentityPlatformOptions
      (ip_accessToken ip || anyFlag backend.accessToken l)
      (ip_idToken ip || anyFlag backend.idToken l)
      (ip_refreshToken ip || anyFlag backend.refreshToken l).
Proof.
  induction l as [|x l IH]; intros [a i r]; simpl.
  - by rewrite !orb_false_r.
  - rewrite IH. unfold orInto; simpl. by rewrite !orb_assoc.
Qed.

Lemma anyFlag_Permutation flag l l' : l ≡ₚ l' → anyFlag flag l = anyFlag flag l'.
Proof.
  intros Hperm. unfold anyFlag. apply eq_true_iff_eq.
  rewrite !existsb_exists. split; intros (x & Hin & Hx); exists x; split; try done.
  - apply list_elem_of_In. rewrite <- Hperm. by apply list_elem_of_In.
  - apply list_elem_of_In. rewrite Hperm. by apply list_elem_of_In.
Qed.

Lemma mergedFlags_Permutation l l' : l ≡ₚ l' → mergedFlags l = mergedFlags l'.
Proof.
  intros Hperm. unfold mergedFlags.
  by rewrite !(anyFlag_Permutation _ l l' Hperm).
Qed.

(** C2: on a plan whose merged options start absent and whose blocking
    endpoints have no duplicate event type, running
    [ensureAuthBlockingTriggerIsValid] once for each blocking endpoint, in
    any order [l], returns; the merged options of the plan, read with an
    undefined flag as false, are then the field-wise OR of the flags of all
    blocking endpoints, and they are stored as such once one endpoint has
    been processed. *)
Theorem ensure_all_merges_by_or (wantBackend : Backend) (l : list BlockingEndpoint) :
  identityPlatform (resourceOptions wantBackend) = None →
  l ≡ₚ blockingEndpointsOf wantBackend →
  (∀ e1 e2, e1 ∈ blockingEndpointsOf wantBackend →
            e2 ∈ blockingEndpointsOf wantBackend →
            eventType (blockingTrigger e1) = eventType (blockingTrigger e2) →
            b_id e1 = b_id e2) →
  ∃ wantBackend',
    forEach ensureAuthBlockingTriggerIsValid l wantBackend = (Returned tt, wantBackend') ∧
    allEndpoints wantBackend' = allEndpoints wantBackend ∧
    optionsRead wantBackend' = mergedFlags (blockingEndpointsOf wantBackend) ∧
    (l ≠ [] →
     identityPlatform (resourceOptions wantBackend')
     = Some (mergedFlags (blockingEndpointsOf wantBackend))).
Proof.
  intros Habsent Hperm Hnodup.
  exists (afterAll l wantBackend). split.
  { apply forEach_ensure_returns. intros e He. apply find_clashes_None.
    intros ep Hep Het. apply Hnodup; [done| |done]. by rewrite <- Hperm. }
  rewrite <- (mergedFlags_Permutation _ _ Hperm).
  destruct l as [|x l].
  - split; [done|]. split; [|done].
    unfold optionsRead, afterAll. by rewrite Habsent.
  - unfold afterAll, optionsRead. rewrite Habsent, fold_left_orInto. done.
Qed.

Lemma ensure_all_merges_by_or_witness :
  let e1 := sampleBlocking "a" "v1.beforeCreate" None (Some true) None None in
  let e2 := sampleBlocking "b" "v1.beforeSignIn" None None (Some false) (Some true) in
  let plan :=
    MkBackend [ofBlocking e1; MkEndpoint "c" "demo-project" None OtherTriggered; ofBlocking e2]
              (MkResourceOptions None) in
  ∃ plan',
    forEach ensureAuthBlockingTriggerIsValid [e2; e1] plan = (Returned tt, plan') ∧
    allEndpoints plan' = allEndpoints plan ∧
    optionsRead plan' = MkIdentityPlatformOptions true false true ∧
    ([e2; e1] ≠ [] →
     identityPlatform (resourceOptions plan')
     = Some (MkIdentityPlatformOptions true false true)).
Proof.
  intros e1 e2 plan.
  apply (ensure_all_merges_by_or plan [e2; e1]).
  - reflexivity.
  - apply Permutation_swap.
  - intros x y Hx Hy.
    apply elem_of_cons in Hx as [->|Hx]; [|apply list_elem_of_singleton in Hx as ->];
    (apply elem_of_cons in Hy as [->|Hy]; [|apply list_elem_of_singleton in Hy as ->]);
    simpl; intros Het; (reflexivity || discriminate Het).
Defined.

(** ** Copying the merged options onto an endpoint *)

(** C8: [copyIdentityPlatformOptionsToEndpoint] applied twice gives what it
    gives applied once, and each flag of the endpoint is then the merged
    flag of the plan, an undefined one read as false. *)
Theorem copyIdentityPlatformOptionsToEndpoint_idempotent
  (endpoint : BlockingEndpoint) (wantBackend : Backend) :
  let once := copyIdentityPlatformOptionsToEndpoint endpoint wantBackend in
  copyIdentityPlatformOptionsToEndpoint once wantBackend = once ∧
  backend.accessToken (blockingTrigger once)
  = Some (ip_accessToken (optionsRead wantBackend)) ∧
  backend.idToken (blockingTrigger once)
  = Some (ip_idToken (optionsRead wantBackend)) ∧
  backend.refreshToken (blockingTrigger once)
  = Some (ip_refreshToken (optionsRead wantBackend)).
Proof. by destruct endpoint as [i p u [et a t r]]. Qed.

(** ** Registration with identity platform *)

Section RegistrarFacts.

Variable E : events.Names.

Lemma isBeforeCreate_true eventType :
  isBeforeCreate E eventType = true ↔ beforeCreateFamily E eventType.
Proof.
  unfold isBeforeCreate, beforeCreateFamily.
  by rewrite orb_true_iff, !bool_decide_eq_true.
Qed.

Lemma isBeforeSignIn_true eventType :
  isBeforeSignIn E eventType = true ↔ beforeSignInFamily E eventType.
Proof.
  unfold isBeforeSignIn, beforeSignInFamily.
  by rewrite orb_true_iff, !bool_decide_eq_true.
Qed.

Lemma beforeSignIn_not_beforeCreate eventType :
  events.families_disjoint E →
  beforeSignInFamily E eventType → isBeforeCreate E eventType = false.
Proof.
  intros (H11 & H12 & H21 & H22) Hs.
  apply not_true_is_false. rewrite isBeforeCreate_true.
  intros [Hc|Hc]; destruct Hs as [Hs|Hs]; congruence.
Qed.

(** The dispatch, by family. *)
Lemma dispatch f eventType :
  (f = BeforeSignIn → events.families_disjoint E) → inFamily E f eventType →
  match f with
  | BeforeCreate => isBeforeCreate E eventType = true
  | BeforeSignIn =>
      isBeforeCreate E eventType = false ∧ isBeforeSignIn E eventType = true
  end.
Proof.
  intros Hdis Hin. destruct f; simpl in Hin.
  - by apply isBeforeCreate_true.
  - split; [apply beforeSignIn_not_beforeCreate; auto | by apply isBeforeSignIn_true].
Qed.

Lemma register_in_family f endpoint update w :
  (f = BeforeSignIn → events.families_disjoint E) →
  inFamily E f (eventType (blockingTrigger endpoint)) →
  registerAuthBlockingTriggerToIdentityPlatform E endpoint update w
  = (Returned tt,
     afterSet (b_project endpoint)
       (registeredConfig f endpoint update (configOf w (b_project endpoint))) w).
Proof.
  intros Hdis Hin. pose proof (dispatch f _ Hdis Hin) as Hd.
  unfold registerAuthBlockingTriggerToIdentityPlatform, bind,
    getBlockingFunctionsConfig.
  destruct f; [rewrite Hd | destruct Hd as [-> ->]];
    unfold ret; simpl; by destruct update.
Qed.

Lemma unregister_in_family f endpoint w :
  (f = BeforeSignIn → events.families_disjoint E) →
  inFamily E f (eventType (blockingTrigger endpoint)) →
  unregisterAuthBlockingTriggerFromIdentityPlatform E endpoint w
  = if notRegistered endpoint (slotOf f (configOf w (b_project endpoint)))
    then (Returned tt, w)
    else (Returned tt,
          afterSet (b_project endpoint)
            (unregisteredConfig f (configOf w (b_project endpoint))) w).
Proof.
  intros Hdis Hin. pose proof (dispatch f _ Hdis Hin) as Hd.
  unfold unregisterAuthBlockingTriggerFromIdentityPlatform, bind,
    getBlockingFunctionsConfig.
  destruct f; [rewrite Hd | destruct Hd as [-> ->]]; simpl;
    by destruct (notRegistered _ _).
Qed.

Lemma unrecognized_dispatch eventType :
  ¬ beforeCreateFamily E eventType → ¬ beforeSignInFamily E eventType →
  isBeforeCreate E eventType = false ∧ isBeforeSignIn E eventType = false.
Proof.
  intros Hc Hs. split; apply not_true_is_false.
  - by rewrite isBeforeCreate_true.
  - by rewrite isBeforeSignIn_true.
Qed.

End RegistrarFacts.

Lemma configOf_afterSet project c w : configOf (afterSet project c w) project = c.
Proof. unfold configOf, afterSet; simpl. by rewrite lookup_insert_eq. Qed.

Lemma slotOf_triggersWith f slot c c' :
  slotOf f (set_triggers (triggersWith f slot c) c') = slot.
Proof. by destruct f. Qed.

Lemma slotOf_other_triggersWith f slot c c' :
  slotOf (otherFamily f) (set_triggers (triggersWith f slot c) c')
  = slotOf (otherFamily f) c.
Proof. by destruct f. Qed.

Lemma slotOf_registeredConfig f endpoint update c :
  slotOf f (registeredConfig f endpoint update c) = Some (MkDetails (b_uri endpoint)) ∧
  slotOf (otherFamily f) (registeredConfig f endpoint update c) = slotOf (otherFamily f) c.
Proof. by destruct f, update. Qed.

Lemma forwardInboundCredentials_registeredConfig f endpoint update c :
  forwardInboundCredentials (registeredConfig f endpoint update c)
  = if update then forwardInboundCredentials c else Some (forwardOf endpoint).
Proof. by destruct f, update. Qed.

Lemma notRegistered_true endpoint slot :
  functionUriOf slot = None ∨ functionUriOf slot ≠ b_uri endpoint →
  notRegistered endpoint slot = true.
Proof.
  intros [Hnone|Hne]; unfold notRegistered.
  - by rewrite Hnone.
  - apply orb_true_iff. right. apply bool_decide_eq_true. congruence.
Qed.

Lemma notRegistered_false endpoint u :
  b_uri endpoint = Some u → u ≠ "" →
  notRegistered endpoint (Some (MkDetails (b_uri endpoint))) = false.
Proof.
  intros Huri Hu. unfold notRegistered; simpl. rewrite Huri; simpl.
  rewrite (bool_decide_eq_true_2 _ Hu); simpl.
  apply bool_decide_eq_false. intros Hne. by apply Hne.
Qed.

(** C3: for an endpoint of the before-create family, registration writes
    back a config whose beforeCreate slot is [{functionUri: endpoint.uri}]
    and whose beforeSignIn slot is the fetched one; for the before-sign-in
    family the two slots change roles. [f] is the family; the names of the
    two families are taken to be disjoint for the second one, which is
    tested second. *)
Theorem register_sets_slot_keeps_other
  (E : events.Names) (f : Family) (endpoint : BlockingEndpoint) (update : bool) (w : World) :
  (f = BeforeSignIn → events.families_disjoint E) →
  inFamily E f (eventType (blockingTrigger endpoint)) →
  ∃ c,
    registerAuthBlockingTriggerToIdentityPlatform E endpoint update w
    = (Returned tt, afterSet (b_project endpoint) c w) ∧
    slotOf f c = Some (MkDetails (b_uri endpoint)) ∧
    slotOf (otherFamily f) c
    = slotOf (otherFamily f) (configOf w (b_project endpoint)).
Proof.
  intros Hdis Hin. eexists. split; [by apply (register_in_family E f)|].
  apply slotOf_registeredConfig.
Qed.

(** C4: for an endpoint of a recognized event type, a fresh registration
    ([update = false]) writes the three flags of the endpoint, as the
    strings "true" and "false" (an undefined flag as "false"), into
    forwardInboundCredentials; an update writes back the fetched value of
    forwardInboundCredentials. *)
Theorem register_forwardInboundCredentials
  (E : events.Names) (f : Family) (endpoint : BlockingEndpoint) (w : World) :
  (f = BeforeSignIn → events.families_disjoint E) →
  inFamily E f (eventType (blockingTrigger endpoint)) →
  (∃ c,
     registerAuthBlockingTriggerToIdentityPlatform E endpoint false w
     = (Returned tt, afterSet (b_project endpoint) c w) ∧
     forwardInboundCredentials c
     = Some {| identityPlatform.idToken :=
                 toString (orFalse (backend.idToken (blockingTrigger endpoint)));
               identityPlatform.accessToken :=
                 toString (orFalse (backend.accessToken (blockingTrigger endpoint)));
               identityPlatform.refreshToken :=
                 toString (orFalse (backend.refreshToken (blockingTrigger endpoint))) |}) ∧
  (∃ c,
     registerAuthBlockingTriggerToIdentityPlatform E endpoint true w
     = (Returned tt, afterSet (b_project endpoint) c w) ∧
     forwardInboundCredentials c
     = forwardInboundCredentials (configOf w (b_project endpoint))).
Proof.
  intros Hdis Hin. split; eexists; (split; [by apply (register_in_family E f)|]);
    by rewrite forwardInboundCredentials_registeredConfig.
Qed.

(** C5: for an endpoint of a recognized event type, when the matching slot
    of the fetched config has no functionUri, or one that is not the uri of
    the endpoint, unregistration returns with the world as it was: no call
    of [setBlockingFunctionsConfig], the remote state unchanged. *)
Theorem unregister_other_uri_is_noop
  (E : events.Names) (f : Family) (endpoint : BlockingEndpoint) (w : World) :
  (f = BeforeSignIn → events.families_disjoint E) →
  inFamily E f (eventType (blockingTrigger endpoint)) →
  functionUriOf (slotOf f (configOf w (b_project endpoint))) = None ∨
  functionUriOf (slotOf f (configOf w (b_project endpoint))) ≠ b_uri endpoint →
  unregisterAuthBlockingTriggerFromIdentityPlatform E endpoint w = (Returned tt, w).
Proof.
  intros Hdis Hin Hslot.
  rewrite (unregister_in_family E f) by done.
  by rewrite notRegistered_true.
Qed.

(** C6: for an endpoint of a recognized event type with a non-empty uri,
    registering and then unregistering it leaves a remote config whose
    matching slot is the empty object and whose other slot is what it was
    before the registration. *)
Theorem register_then_unregister_clears_slot
  (E : events.Names) (f : Family) (endpoint : BlockingEndpoint) (update : bool)
  (w : World) (u : string) :
  (f = BeforeSignIn → events.families_disjoint E) →
  inFamily E f (eventType (blockingTrigger endpoint)) →
  b_uri endpoint = Some u → u ≠ "" →
  ∃ w',
    (registerAuthBlockingTriggerToIdentityPlatform E endpoint update ;;;
     unregisterAuthBlockingTriggerFromIdentityPlatform E endpoint) w
    = (Returned tt, w') ∧
    slotOf f (configOf w' (b_project endpoint)) = Some emptyDetails ∧
    slotOf (otherFamily f) (configOf w' (b_project endpoint))
    = slotOf (otherFamily f) (configOf w (b_project endpoint)).
Proof.
  intros Hdis Hin Huri Hu.
  pose proof (slotOf_registeredConfig f endpoint update
                (configOf w (b_project endpoint))) as [Hslot Hother].
  eexists. split.
  - unfold bind. rewrite (register_in_family E f) by done.
    rewrite (unregister_in_family E f) by done.
    rewrite configOf_afterSet, Hslot, (notRegistered_false _ u) by done.
    reflexivity.
  - rewrite configOf_afterSet. unfold unregisteredConfig.
    by rewrite slotOf_triggersWith, slotOf_other_triggersWith.
Qed.

(** C7: for an endpoint whose event type is in neither family, registration
    and unregistration both throw the invalid trigger type error and leave
    the world as it was: nothing is written. *)
Theorem unrecognized_event_type_is_invalid
  (E : events.Names) (endpoint : BlockingEndpoint) (update : bool) (w : World) :
  ¬ beforeCreateFamily E (eventType (blockingTrigger endpoint)) →
  ¬ beforeSignInFamily E (eventType (blockingTrigger endpoint)) →
  (∃ err,
     registerAuthBlockingTriggerToIdentityPlatform E endpoint update w = (Thrown err, w) ∧
     isInvalidTriggerType err) ∧
  (∃ err,
     unregisterAuthBlockingTriggerFromIdentityPlatform E endpoint w = (Thrown err, w) ∧
     isInvalidTriggerType err).
Proof.
  intros Hc Hs. destruct (unrecognized_dispatch E _ Hc Hs) as [Hbc Hsi].
  split; eexists.
  - unfold registerAuthBlockingTriggerToIdentityPlatform, bind,
      getBlockingFunctionsConfig.
    rewrite Hbc, Hsi. split; [reflexivity | by left].
  - unfold unregisterAuthBlockingTriggerFromIdentityPlatform, bind,
      getBlockingFunctionsConfig.
    rewrite Hbc, Hsi. split; [reflexivity | by right].
Qed.

Lemma register_sets_slot_keeps_other_witness :
  let a := sampleBlocking "a" "v2.beforeCreate" (Some "https://b") None (Some true) None in
  let s := sampleBlocking "s" "v1.beforeSignIn" (Some "https://t") None None None in
  (∃ c,
     registerAuthBlockingTriggerToIdentityPlatform sampleNames a false takenWorld
     = (Returned tt, afterSet "demo-project" c takenWorld) ∧
     beforeCreateOf c = Some (MkDetails (Some "https://b")) ∧
     beforeSignInOf c = beforeSignInOf (configOf takenWorld "demo-project")) ∧
  (∃ c,
     registerAuthBlockingTriggerToIdentityPlatform sampleNames s true takenWorld
     = (Returned tt, afterSet "demo-project" c takenWorld) ∧
     beforeSignInOf c = Some (MkDetails (Some "https://t")) ∧
     beforeCreateOf c = beforeCreateOf (configOf takenWorld "demo-project")).
Proof.
  intros a s. split.
  - apply (register_sets_slot_keeps_other sampleNames BeforeCreate a false takenWorld).
    + intros Hf. discriminate Hf.
    + right. reflexivity.
  - apply (register_sets_slot_keeps_other sampleNames BeforeSignIn s true takenWorld).
    + intros _. repeat split; simpl; discriminate.
    + left. reflexivity.
Defined.

Lemma register_forwardInboundCredentials_witness :
  let a := sampleBlocking "a" "v2.beforeCreate" (Some "https://b") None (Some true) None in
  (∃ c,
     registerAuthBlockingTriggerToIdentityPlatform sampleNames a false takenWorld
     = (Returned tt, afterSet "demo-project" c takenWorld) ∧
     forwardInboundCredentials c
     = Some {| identityPlatform.idToken := "true";
               identityPlatform.accessToken := "false";
               identityPlatform.refreshToken := "false" |}) ∧
  (∃ c,
     registerAuthBlockingTriggerToIdentityPlatform sampleNames a true takenWorld
     = (Returned tt, afterSet "demo-project" c takenWorld) ∧
     forwardInboundCredentials c
     = forwardInboundCredentials (configOf takenWorld "demo-project")).
Proof.
  intros a.
  apply (register_forwardInboundCredentials sampleNames BeforeCreate a takenWorld).
  - intros Hf. discriminate Hf.
  - right. reflexivity.
Defined.

Lemma unregister_other_uri_is_noop_witness :
  unregisterAuthBlockingTriggerFromIdentityPlatform sampleNames
    (sampleBlocking "b" "v1.beforeCreate" (Some "https://b") None None None)
    takenWorld
  = (Returned tt, takenWorld).
Proof.
  apply (unregister_other_uri_is_noop sampleNames BeforeCreate).
  - intros Hf. discriminate Hf.
  - left. reflexivity.
  - right. vm_compute. discriminate.
Defined.

Lemma register_then_unregister_clears_slot_witness :
  let s := sampleBlocking "s" "v2.beforeSignIn" (Some "https://t") None None None in
  ∃ w',
    (registerAuthBlockingTriggerToIdentityPlatform sampleNames s false ;;;
     unregisterAuthBlockingTriggerFromIdentityPlatform sampleNames s) takenWorld
    = (Returned tt, w') ∧
    beforeSignInOf (configOf w' "demo-project") = Some emptyDetails ∧
    beforeCreateOf (configOf w' "demo-project")
    = beforeCreateOf (configOf takenWorld "demo-project").
Proof.
  intros s.
  apply (register_then_unregister_clears_slot sampleNames BeforeSignIn s false
           takenWorld "https://t").
  - intros _. repeat split; simpl; discriminate.
  - right. reflexivity.
  - reflexivity.
  - discriminate.
Defined.

Lemma unrecognized_event_type_is_invalid_witness :
  let x := sampleBlocking "x" "v1.beforeDelete" (Some "https://x") None None None in
  (∃ err,
     registerAuthBlockingTriggerToIdentityPlatform sampleNames x false takenWorld
     = (Thrown err, takenWorld) ∧
     isInvalidTriggerType err) ∧
  (∃ err,
     unregisterAuthBlockingTriggerFromIdentityPlatform sampleNames x takenWorld
     = (Thrown err, takenWorld) ∧
     isInvalidTriggerType err).
Proof.
  intros x.
  apply (unrecognized_event_type_is_invalid sampleNames x false takenWorld).
  - intros [H|H]; simpl in H; discriminate H.
  - intros [H|H]; simpl in H; discriminate H.
Defined.

(** ** The scenarios of the specification, run *)

(** Endpoint A (before-create v2, uri "https://a", idToken only) registered
    afresh on an empty remote config. *)
Example scenario_register_on_empty :
  let a := sampleBlocking "A" "v2.beforeCreate" (Some "https://a")
             (Some false) (Some true) (Some false) in
  let r := registerAuthBlockingTriggerToIdentityPlatform sampleNames a false emptyWorld in
  r.1 = Returned tt ∧
  configOf r.2 "demo-project"
  = MkConfig (Some (MkTriggers (Some (MkDetails (Some "https://a"))) None))
             (Some (MkForward "true" "false" "false")) ∧
  setCalls r.2 = [("demo-project", configOf r.2 "demo-project")].
Proof. vm_compute. done. Qed.

(** Endpoint A registered as above, then endpoint B (before-create, uri
    "https://b") unregistered: nothing changes. *)
Example scenario_unregister_other :
  let a := sampleBlocking "A" "v2.beforeCreate" (Some "https://a")
             (Some false) (Some true) (Some false) in
  let b := sampleBlocking "B" "v1.beforeCreate" (Some "https://b") None None None in
  let w := (registerAuthBlockingTriggerToIdentityPlatform sampleNames a false emptyWorld).2 in
  unregisterAuthBlockingTriggerFromIdentityPlatform sampleNames b w = (Returned tt, w).
Proof. vm_compute. done. Qed.

(** With an empty uri the guard of unregistration holds: the slot keeps the
    empty uri and nothing is written. *)
Example scenario_empty_uri_stays :
  let a := sampleBlocking "A" "v1.beforeCreate" (Some "") None None None in
  let w := (registerAuthBlockingTriggerToIdentityPlatform sampleNames a false emptyWorld).2 in
  unregisterAuthBlockingTriggerFromIdentityPlatform sampleNames a w = (Returned tt, w) ∧
  beforeCreateOf (configOf w "demo-project") = Some (MkDetails (Some "")).
Proof. vm_compute. done. Qed.

(** A third endpoint of the very same event type string is a duplicate,
    whatever other variants the plan holds. *)
Example scenario_third_endpoint_clashes :
  let e1 := sampleBlocking "a" "v1.beforeCreate" None None None None in
  let e2 := sampleBlocking "b" "v2.beforeCreate" None None None None in
  let e3 := sampleBlocking "c" "v1.beforeCreate" None None None None in
  let plan := MkBackend [ofBlocking e1; ofBlocking e2; ofBlocking e3]
                        (MkResourceOptions None) in
  (ensureAuthBlockingTriggerIsValid e1 plan).1
  = Thrown (FirebaseError
              "Can only create at most one Auth Blocking Trigger for v1.beforeCreate events") ∧
  (ensureAuthBlockingTriggerIsValid e2 plan).1 = Returned tt.
Proof. vm_compute. done. Qed.


(** ** More on the validator *)

Lemma find_clashes_is_Some wantBackend endpoint :
  is_Some (find (clashes endpoint) (blockingEndpointsOf wantBackend)) ↔
  ∃ other bt,
    other ∈ allEndpoints wantBackend ∧ trigger other = BlockingTriggered bt ∧
    id other ≠ b_id endpoint ∧
    eventType bt = eventType (blockingTrigger endpoint).
Proof.
  split.
  - intros [ep Hf]. apply find_some in Hf as [Hin Hc].
    apply clashes_true in Hc as [Het Hid].
    apply list_elem_of_In, elem_of_blockingEndpointsOf in Hin as (other & Hin & Hcast).
    unfold asBlocking in Hcast.
    destruct (trigger other) as [bt|] eqn:Htrig; [|done].
    injection Hcast as <-. exists other, bt. done.
  - intros (other & bt & Hin & Htrig & Hid & Het).
    destruct (find (clashes endpoint) (blockingEndpointsOf wantBackend)) eqn:Hf; [eauto|].
    exfalso. apply Hid.
    apply (proj1 (find_clashes_None _ _) Hf
             (MkBlockingEndpoint (id other) (project other) (uri other) bt)); [|done].
    apply elem_of_blockingEndpointsOf. exists other. split; [done|].
    unfold asBlocking. by rewrite Htrig.
Qed.

Lemma orInto_twice ip endpoint : orInto (orInto ip endpoint) endpoint = orInto ip endpoint.
Proof.
  unfold orInto; simpl. f_equal; rewrite <- orb_assoc; by rewrite orb_diag.
Qed.

Lemma afterAll_options l wantBackend :
  l ≠ [] →
  identityPlatform (resourceOptions (afterAll l wantBackend))
  = Some (orOptions (optionsRead wantBackend) (mergedFlags l)).
Proof.
  intros Hl. destruct l as [|x l]; [done|].
  unfold afterAll, optionsRead. rewrite fold_left_orInto. simpl.
  by destruct (identityPlatform (resourceOptions wantBackend)) as [[a i r]|].
Qed.

Lemma afterAll_Permutation l l' wantBackend :
  l ≡ₚ l' → afterAll l wantBackend = afterAll l' wantBackend.
Proof.
  intros Hperm. destruct l as [|x l], l' as [|y l'].
  - done.
  - by apply Permutation_nil_cons in Hperm.
  - symmetry in Hperm. by apply Permutation_nil_cons in Hperm.
  - unfold afterAll. rewrite !fold_left_orInto.
    by rewrite !(anyFlag_Permutation _ _ _ Hperm).
Qed.

Lemma clashFree_find wantBackend l :
  clashFree wantBackend l →
  ∀ e, e ∈ l → find (clashes e) (blockingEndpointsOf wantBackend) = None.
Proof.
  intros Hfree e He. apply find_clashes_None. intros ep Hep Het. by apply (Hfree e ep).
Qed.

(** X1: the validator throws exactly when the plan holds a blocking
    endpoint of the same event type string under another id; endpoints
    without a blocking trigger, and endpoints under the id of [endpoint],
    never make it throw. *)
Theorem ensure_throws_iff (wantBackend : Backend) (endpoint : BlockingEndpoint) :
  (∃ err, (ensureAuthBlockingTriggerIsValid endpoint wantBackend).1 = Thrown err) ↔
  (∃ other bt,
     other ∈ allEndpoints wantBackend ∧ trigger other = BlockingTriggered bt ∧
     id other ≠ b_id endpoint ∧
     eventType bt = eventType (blockingTrigger endpoint)).
Proof.
  rewrite <- find_clashes_is_Some.
  destruct (ensure_cases endpoint wantBackend) as [[Hf Heq]|[Hf Heq]]; rewrite Heq; simpl.
  - rewrite Hf. split; [intros [err Herr]; discriminate | intros [x Hx]; discriminate].
  - split; [done | eauto].
Qed.

(** X2: the one error of the validator is the duplicate trigger error (the
    read of [identityPlatform] never meets [undefined]); when it returns,
    the merged options are defined and the endpoints are those of before. *)
Theorem ensure_outcomes (wantBackend : Backend) (endpoint : BlockingEndpoint) :
  match ensureAuthBlockingTriggerIsValid endpoint wantBackend with
  | (Thrown err, wantBackend') =>
      isDuplicateTrigger endpoint err ∧ wantBackend' = wantBackend
  | (Returned _, wantBackend') =>
      allEndpoints wantBackend' = allEndpoints wantBackend ∧
      identityPlatform (resourceOptions wantBackend')
      = Some (orOptions (optionsRead wantBackend)
                        (orInto allFalse endpoint))
  end.
Proof.
  destruct (ensure_cases endpoint wantBackend) as [[_ ->]|[_ ->]]; [|done].
  split; [done|]. unfold optionsRead, orInto, orOptions. simpl.
  by destruct (identityPlatform (resourceOptions wantBackend)) as [[a i r]|].
Qed.

(** X3: validating the same endpoint a second time changes nothing: the two
    calls in a row end as one call does. *)
Theorem ensure_idempotent (wantBackend : Backend) (endpoint : BlockingEndpoint) :
  (ensureAuthBlockingTriggerIsValid endpoint ;;;
   ensureAuthBlockingTriggerIsValid endpoint) wantBackend
  = ensureAuthBlockingTriggerIsValid endpoint wantBackend.
Proof.
  unfold bind.
  destruct (ensure_cases endpoint wantBackend) as [[Hf ->]|[_ ->]]; [|done].
  rewrite ensure_returns by done. simpl.
  by rewrite set_identityPlatform_twice, orInto_twice.
Qed.

(** X4: from any state of the merged options, validating a list of
    endpoints none of which clashes returns, leaves the endpoints of the
    plan alone and ORs the flags of the list into the options that were
    there: a flag that was set stays set. *)
Theorem ensure_all_accumulates (wantBackend : Backend) (l : list BlockingEndpoint) :
  clashFree wantBackend l →
  ∃ wantBackend',
    forEach ensureAuthBlockingTriggerIsValid l wantBackend = (Returned tt, wantBackend') ∧
    allEndpoints wantBackend' = allEndpoints wantBackend ∧
    optionsRead wantBackend' = orOptions (optionsRead wantBackend) (mergedFlags l).
Proof.
  intros Hfree. pose proof (clashFree_find _ _ Hfree) as Hok.
  exists (afterAll l wantBackend).
  split; [by apply forEach_ensure_returns|].
  destruct l as [|x l].
  - split; [done|]. simpl. unfold optionsRead, orOptions, mergedFlags; simpl.
    by rewrite !orb_false_r.
  - split; [done|]. unfold optionsRead at 1.
    by rewrite afterAll_options.
Qed.

Lemma ensure_all_accumulates_witness :
  let e1 := sampleBlocking "a" "v1.beforeCreate" None (Some true) None None in
  let plan := MkBackend [ofBlocking e1]
                (MkResourceOptions (Some (MkIdentityPlatformOptions false false true))) in
  ∃ plan',
    forEach ensureAuthBlockingTriggerIsValid [e1] plan = (Returned tt, plan') ∧
    allEndpoints plan' = allEndpoints plan ∧
    optionsRead plan' = MkIdentityPlatformOptions true false true.
Proof.
  intros e1 plan.
  apply (ensure_all_accumulates plan [e1]).
  intros e ep He Hep. apply list_elem_of_singleton in He as ->.
  apply list_elem_of_singleton in Hep as ->. reflexivity.
Defined.

(** X5: the order of validation does not matter: two orders of the same
    endpoints, none of which clashes, end in the same backend. *)
Theorem ensure_all_order_irrelevant (wantBackend : Backend) (l l' : list BlockingEndpoint) :
  l ≡ₚ l' →
  clashFree wantBackend l →
  forEach ensureAuthBlockingTriggerIsValid l wantBackend
  = forEach ensureAuthBlockingTriggerIsValid l' wantBackend.
Proof.
  intros Hperm Hfree. pose proof (clashFree_find _ _ Hfree) as Hok.
  rewrite !forEach_ensure_returns.
  - by rewrite (afterAll_Permutation _ _ _ Hperm).
  - intros e He. apply Hok. by rewrite Hperm.
  - done.
Qed.

Lemma ensure_all_order_irrelevant_witness :
  let e1 := sampleBlocking "a" "v1.beforeCreate" None (Some true) None None in
  let e2 := sampleBlocking "b" "v1.beforeSignIn" None None (Some false) (Some true) in
  let plan := MkBackend [ofBlocking e1; ofBlocking e2] (MkResourceOptions None) in
  forEach ensureAuthBlockingTriggerIsValid [e1; e2] plan
  = forEach ensureAuthBlockingTriggerIsValid [e2; e1] plan.
Proof.
  intros e1 e2 plan.
  apply (ensure_all_order_irrelevant plan [e1; e2] [e2; e1]).
  - apply Permutation_swap.
  - intros e ep He Hep.
    apply elem_of_cons in He as [->|He]; [|apply list_elem_of_singleton in He as ->];
    (apply elem_of_cons in Hep as [->|Hep]; [|apply list_elem_of_singleton in Hep as ->]);
    simpl; intros Het; (reflexivity || discriminate Het).
Defined.

Lemma forEach_ensure_throws l : ∀ wantBackend e ep,
  e ∈ l → ep ∈ blockingEndpointsOf wantBackend →
  eventType (blockingTrigger ep) = eventType (blockingTrigger e) →
  b_id ep ≠ b_id e →
  ∃ e' wantBackend',
    e' ∈ l ∧
    forEach ensureAuthBlockingTriggerIsValid l wantBackend
    = (Thrown (FirebaseError (duplicateTriggerMessage e')), wantBackend').
Proof.
  induction l as [|x l IH]; intros wantBackend e ep He Hep Het Hid.
  - by apply elem_of_nil in He.
  - simpl. unfold bind at 1.
    destruct (ensure_cases x wantBackend) as [[Hf ->]|[_ ->]].
    + apply elem_of_cons in He as [->|He].
      { exfalso. apply Hid. by apply (proj1 (find_clashes_None _ _) Hf). }
      destruct (IH (set_identityPlatform
                      (Some (orInto (default allFalse
                                       (identityPlatform (resourceOptions wantBackend))) x))
                      wantBackend) e ep He Hep Het Hid) as (e' & b' & He' & Hrun).
      exists e', b'. split; [by right | done].
    + exists x, wantBackend. split; [by left | done].
Qed.

(** X6: when some endpoint of the list meets, among the blocking endpoints
    of the plan, its event type under another id, validating the list
    throws the duplicate trigger error of an endpoint of the list, whatever
    the order of the list. *)
Theorem ensure_all_rejects_duplicates
  (wantBackend : Backend) (l : list BlockingEndpoint) (e ep : BlockingEndpoint) :
  e ∈ l → ep ∈ blockingEndpointsOf wantBackend →
  eventType (blockingTrigger ep) = eventType (blockingTrigger e) →
  b_id ep ≠ b_id e →
  ∃ e' err,
    e' ∈ l ∧
    (forEach ensureAuthBlockingTriggerIsValid l wantBackend).1 = Thrown err ∧
    isDuplicateTrigger e' err.
Proof.
  intros He Hep Het Hid.
  destruct (forEach_ensure_throws l wantBackend e ep He Hep Het Hid)
    as (e' & b' & He' & Hrun).
  exists e', (FirebaseError (duplicateTriggerMessage e')).
  rewrite Hrun. done.
Qed.

Lemma ensure_all_rejects_duplicates_witness :
  let e1 := sampleBlocking "a" "v1.beforeSignIn" None None None None in
  let e2 := sampleBlocking "b" "v1.beforeCreate" None None None None in
  let e3 := sampleBlocking "c" "v1.beforeCreate" None None None None in
  let plan := MkBackend [ofBlocking e1; ofBlocking e2; ofBlocking e3]
                        (MkResourceOptions None) in
  ∃ e' err,
    e' ∈ [e1; e2; e3] ∧
    (forEach ensureAuthBlockingTriggerIsValid [e1; e2; e3] plan).1 = Thrown err ∧
    isDuplicateTrigger e' err.
Proof.
  intros e1 e2 e3 plan.
  apply (ensure_all_rejects_duplicates plan [e1; e2; e3] e3 e2).
  - apply list_elem_of_In. right. right. left. reflexivity.
  - apply list_elem_of_In. right. left. reflexivity.
  - reflexivity.
  - simpl. discriminate.
Defined.

Lemma copy_blockingTrigger endpoint wantBackend :
  blockingTrigger (copyIdentityPlatformOptionsToEndpoint endpoint wantBackend)
  = MkBlockingTrigger (eventType (blockingTrigger endpoint))
      (Some (ip_accessToken (optionsRead wantBackend)))
      (Some (ip_idToken (optionsRead wantBackend)))
      (Some (ip_refreshToken (optionsRead wantBackend))).
Proof. by destruct endpoint as [i p u [et a t r]]. Qed.

Lemma anyFlag_elem flag l e :
  e ∈ l → orFalse (flag (blockingTrigger e)) = true → anyFlag flag l = true.
Proof.
  intros He Hflag. unfold anyFlag. apply existsb_exists.
  exists e. split; [by apply list_elem_of_In | done].
Qed.

(** X7: after a list of endpoints has been validated without a clash,
    [copyIdentityPlatformOptionsToEndpoint] gives any endpoint the flags
    that were merged before, ORed with the flags of the whole list; it
    keeps the id, the project, the uri and the event type; and every
    endpoint of the list gets at least the flags it asked for. *)
Theorem validate_then_copy (wantBackend : Backend) (l : list BlockingEndpoint) :
  clashFree wantBackend l →
  ∃ wantBackend',
    forEach ensureAuthBlockingTriggerIsValid l wantBackend = (Returned tt, wantBackend') ∧
    (∀ e,
       let e' := copyIdentityPlatformOptionsToEndpoint e wantBackend' in
       b_id e' = b_id e ∧ b_project e' = b_project e ∧ b_uri e' = b_uri e ∧
       blockingTrigger e'
       = MkBlockingTrigger (eventType (blockingTrigger e))
           (Some (ip_accessToken (optionsRead wantBackend)
                  || anyFlag backend.accessToken l))
           (Some (ip_idToken (optionsRead wantBackend)
                  || anyFlag backend.idToken l))
           (Some (ip_refreshToken (optionsRead wantBackend)
                  || anyFlag backend.refreshToken l))) ∧
    (∀ e, e ∈ l →
          grantsRequests e (copyIdentityPlatformOptionsToEndpoint e wantBackend')).
Proof.
  intros Hfree. pose proof (clashFree_find _ _ Hfree) as Hok.
  exists (afterAll l wantBackend).
  split; [by apply forEach_ensure_returns|].
  assert (optionsRead (afterAll l wantBackend)
          = orOptions (optionsRead wantBackend) (mergedFlags l)) as Hread.
  { destruct l as [|x l].
    - simpl. unfold optionsRead, orOptions, mergedFlags; simpl.
      by rewrite !orb_false_r.
    - unfold optionsRead at 1. by rewrite afterAll_options. }
  split.
  - intros e e'. unfold e'. rewrite copy_blockingTrigger, Hread.
    by destruct e as [i p u [et a t r]].
  - intros e He. unfold grantsRequests.
    rewrite copy_blockingTrigger, Hread. simpl.
    repeat split; intros Hreq;
      rewrite (anyFlag_elem _ l e He Hreq); by rewrite orb_true_r.
Qed.

Lemma validate_then_copy_witness :
  let e1 := sampleBlocking "a" "v1.beforeCreate" (Some "https://a") (Some true) None None in
  let e2 := sampleBlocking "b" "v1.beforeSignIn" None None (Some false) (Some true) in
  let plan := MkBackend [ofBlocking e1; ofBlocking e2] (MkResourceOptions None) in
  ∃ plan',
    forEach ensureAuthBlockingTriggerIsValid [e1; e2] plan = (Returned tt, plan') ∧
    (∀ e,
       let e' := copyIdentityPlatformOptionsToEndpoint e plan' in
       b_id e' = b_id e ∧ b_project e' = b_project e ∧ b_uri e' = b_uri e ∧
       blockingTrigger e'
       = MkBlockingTrigger (eventType (blockingTrigger e))
           (Some true) (Some false) (Some true)) ∧
    (∀ e, e ∈ [e1; e2] →
          grantsRequests e (copyIdentityPlatformOptionsToEndpoint e plan')).
Proof.
  intros e1 e2 plan.
  apply (validate_then_copy plan [e1; e2]).
  intros e ep He Hep.
  apply elem_of_cons in He as [->|He]; [|apply list_elem_of_singleton in He as ->];
  (apply elem_of_cons in Hep as [->|Hep]; [|apply list_elem_of_singleton in Hep as ->]);
  simpl; intros Het; (reflexivity || discriminate Het).
Defined.

(** ** More on the registrar *)

Lemma register_cases E endpoint update w :
  registerAuthBlockingTriggerToIdentityPlatform E endpoint update w
  = match dispatchOf E (eventType (blockingTrigger endpoint)) with
    | Some f =>
        (Returned tt,
         afterSet (b_project endpoint)
           (registeredConfig f endpoint update (configOf w (b_project endpoint))) w)
    | None => (Thrown (FirebaseError "Invalid auth blocking trigger type."), w)
    end.
Proof.
  unfold registerAuthBlockingTriggerToIdentityPlatform, dispatchOf, bind,
    getBlockingFunctionsConfig.
  destruct (isBeforeCreate E _); [by destruct update|].
  destruct (isBeforeSignIn E _); [by destruct update|done].
Qed.

Lemma unregister_cases E endpoint w :
  unregisterAuthBlockingTriggerFromIdentityPlatform E endpoint w
  = match dispatchOf E (eventType (blockingTrigger endpoint)) with
    | Some f =>
        if notRegistered endpoint (slotOf f (configOf w (b_project endpoint)))
        then (Returned tt, w)
        else (Returned tt,
              afterSet (b_project endpoint)
                (unregisteredConfig f (configOf w (b_project endpoint))) w)
    | None => (Thrown (FirebaseError "Invalid auth blocking trigger type"), w)
    end.
Proof.
  unfold unregisterAuthBlockingTriggerFromIdentityPlatform, dispatchOf, bind,
    getBlockingFunctionsConfig.
  destruct (isBeforeCreate E _); simpl; [by destruct (notRegistered _ _)|].
  destruct (isBeforeSignIn E _); simpl; [by destruct (notRegistered _ _)|done].
Qed.

Lemma dispatchOf_in_family E f eventType :
  (f = BeforeSignIn → events.families_disjoint E) →
  inFamily E f eventType → dispatchOf E eventType = Some f.
Proof.
  intros Hdis Hin. pose proof (dispatch E f eventType Hdis Hin) as Hd.
  unfold dispatchOf. destruct f; [by rewrite Hd | by destruct Hd as [-> ->]].
Qed.

Lemma remote_afterSet_ne project project' c w :
  project' ≠ project → remote (afterSet project c w) !! project' = remote w !! project'.
Proof. intros Hne. unfold afterSet; simpl. by rewrite lookup_insert_ne. Qed.

Lemma configOf_afterSet_ne project project' c w :
  project' ≠ project → configOf (afterSet project c w) project' = configOf w project'.
Proof. intros Hne. unfold configOf. by rewrite remote_afterSet_ne. Qed.

Lemma forwardInboundCredentials_afterSet project c w project' :
  forwardInboundCredentials c = forwardInboundCredentials (configOf w project) →
  forwardInboundCredentials (configOf (afterSet project c w) project')
  = forwardInboundCredentials (configOf w project').
Proof.
  intros Hc. destruct (decide (project' = project)) as [->|Hne].
  - by rewrite configOf_afterSet.
  - by rewrite configOf_afterSet_ne.
Qed.

(** X8: neither function touches the stored config of a project other than
    that of the endpoint, on any path. *)
Theorem registrar_other_projects_untouched
  (E : events.Names) (endpoint : BlockingEndpoint) (update : bool) (w : World)
  (project' : string) :
  project' ≠ b_project endpoint →
  remote (registerAuthBlockingTriggerToIdentityPlatform E endpoint update w).2 !! project'
  = remote w !! project' ∧
  remote (unregisterAuthBlockingTriggerFromIdentityPlatform E endpoint w).2 !! project'
  = remote w !! project'.
Proof.
  intros Hne. rewrite register_cases, unregister_cases.
  destruct (dispatchOf E _) as [f|]; [|done].
  split; [|destruct (notRegistered _ _); [done|]]; by apply remote_afterSet_ne.
Qed.

Lemma registrar_other_projects_untouched_witness :
  let a := sampleBlocking "a" "v1.beforeCreate" (Some "https://a") None None None in
  remote (registerAuthBlockingTriggerToIdentityPlatform sampleNames a false takenWorld).2
    !! "other-project"
  = remote takenWorld !! "other-project" ∧
  remote (unregisterAuthBlockingTriggerFromIdentityPlatform sampleNames a takenWorld).2
    !! "other-project"
  = remote takenWorld !! "other-project".
Proof.
  intros a.
  apply (registrar_other_projects_untouched sampleNames a false takenWorld "other-project").
  simpl. discriminate.
Defined.

(** X9: unregistration, and registration as an update, never change the
    forwardInboundCredentials of any project, on any path. *)
Theorem forwarding_flags_only_set_by_fresh_registration
  (E : events.Names) (endpoint : BlockingEndpoint) (w : World) (project' : string) :
  forwardInboundCredentials
    (configOf (unregisterAuthBlockingTriggerFromIdentityPlatform E endpoint w).2 project')
  = forwardInboundCredentials (configOf w project') ∧
  forwardInboundCredentials
    (configOf (registerAuthBlockingTriggerToIdentityPlatform E endpoint true w).2 project')
  = forwardInboundCredentials (configOf w project').
Proof.
  rewrite register_cases, unregister_cases.
  destruct (dispatchOf E _) as [f|]; [|done].
  split.
  - destruct (notRegistered _ _); [done|].
    by apply forwardInboundCredentials_afterSet.
  - apply forwardInboundCredentials_afterSet.
    by rewrite forwardInboundCredentials_registeredConfig.
Qed.

(** X10: once the config is fetched, and with the write going through when
    it is reached, registration either throws the invalid trigger type
    error with nothing written, or makes one write, to the project of the
    endpoint; unregistration either throws that error with nothing written,
    or returns with no write, or with one write to the project of the
    endpoint. A failure of the remote client itself is not part of this
    model. *)
Theorem registrar_outcomes
  (E : events.Names) (endpoint : BlockingEndpoint) (update : bool) (w : World) :
  match registerAuthBlockingTriggerToIdentityPlatform E endpoint update w with
  | (Returned _, w') => ∃ c, w' = afterSet (b_project endpoint) c w
  | (Thrown err, w') => isInvalidTriggerType err ∧ w' = w
  end ∧
  match unregisterAuthBlockingTriggerFromIdentityPlatform E endpoint w with
  | (Returned _, w') => w' = w ∨ ∃ c, w' = afterSet (b_project endpoint) c w
  | (Thrown err, w') => isInvalidTriggerType err ∧ w' = w
  end.
Proof.
  rewrite register_cases, unregister_cases.
  destruct (dispatchOf E _) as [f|].
  - split; [eauto|]. destruct (notRegistered _ _); eauto.
  - split; (split; [|done]); [by left | by right].
Qed.

Lemma notRegistered_false_iff endpoint slot :
  notRegistered endpoint slot = false ↔
  ∃ u, u ≠ "" ∧ b_uri endpoint = Some u ∧ functionUriOf slot = Some u.
Proof.
  unfold notRegistered. rewrite orb_false_iff, negb_false_iff, bool_decide_eq_false.
  split.
  - intros [Ht Heq]. destruct (functionUriOf slot) as [u|] eqn:Hu; [|done].
    simpl in Ht. apply bool_decide_eq_true in Ht.
    exists u. split; [done|]. split; [|done].
    destruct (decide (b_uri endpoint = Some u)) as [|Hne]; [done|].
    by destruct Heq.
  - intros (u & Hu & Huri & ->). split.
    + simpl. by apply bool_decide_eq_true.
    + rewrite Huri. intros Hne. by apply Hne.
Qed.

(** X11: for an endpoint of a recognized event type, unregistration writes
    exactly when the matching slot holds a non-empty functionUri that is
    the uri of the endpoint; what it then writes has the matching slot
    empty, the other slot and forwardInboundCredentials as fetched. *)
Theorem unregister_writes_iff_registered
  (E : events.Names) (f : Family) (endpoint : BlockingEndpoint) (w : World) :
  (f = BeforeSignIn → events.families_disjoint E) →
  inFamily E f (eventType (blockingTrigger endpoint)) →
  let fetched := configOf w (b_project endpoint) in
  let r := unregisterAuthBlockingTriggerFromIdentityPlatform E endpoint w in
  (setCalls r.2 ≠ setCalls w ↔
   ∃ u, u ≠ "" ∧ b_uri endpoint = Some u ∧ functionUriOf (slotOf f fetched) = Some u) ∧
  (setCalls r.2 ≠ setCalls w →
   ∃ c, r = (Returned tt, afterSet (b_project endpoint) c w) ∧
        slotOf f c = Some emptyDetails ∧
        slotOf (otherFamily f) c = slotOf (otherFamily f) fetched ∧
        forwardInboundCredentials c = forwardInboundCredentials fetched).
Proof.
  intros Hdis Hin fetched r. unfold r, fetched.
  rewrite unregister_cases, (dispatchOf_in_family E f) by done.
  rewrite <- notRegistered_false_iff.
  destruct (notRegistered _ _); simpl.
  - split; [split; [done | discriminate] | done].
  - assert ((setCalls w ++ [(b_project endpoint,
                             unregisteredConfig f (configOf w (b_project endpoint)))])%list
            ≠ setCalls w) as Hgrow.
    { intros Heq. apply (f_equal length) in Heq.
      rewrite length_app in Heq. simpl in Heq. lia. }
    split; [done|]. intros _. eexists. split; [reflexivity|].
    unfold unregisteredConfig.
    by rewrite slotOf_triggersWith, slotOf_other_triggersWith.
Qed.

Lemma unregister_writes_iff_registered_witness :
  let a := sampleBlocking "a" "v2.beforeCreate" (Some "https://a") None None None in
  let fetched := configOf takenWorld "demo-project" in
  let r := unregisterAuthBlockingTriggerFromIdentityPlatform sampleNames a takenWorld in
  (setCalls r.2 ≠ setCalls takenWorld ↔
   ∃ u, u ≠ "" ∧ Some "https://a" = Some u ∧
        functionUriOf (beforeCreateOf fetched) = Some u) ∧
  (setCalls r.2 ≠ setCalls takenWorld →
   ∃ c, r = (Returned tt, afterSet "demo-project" c takenWorld) ∧
        beforeCreateOf c = Some emptyDetails ∧
        beforeSignInOf c = beforeSignInOf fetched ∧
        forwardInboundCredentials c = forwardInboundCredentials fetched).
Proof.
  intros a.
  apply (unregister_writes_iff_registered sampleNames BeforeCreate a takenWorld).
  - intros Hf. discriminate Hf.
  - right. reflexivity.
Defined.

Lemma notRegistered_emptyDetails endpoint :
  notRegistered endpoint (Some emptyDetails) = true.
Proof. done. Qed.

Lemma slotOf_unregisteredConfig f c : slotOf f (unregisteredConfig f c) = Some emptyDetails.
Proof. by destruct f. Qed.

Lemma registeredConfig_twice f endpoint update c :
  registeredConfig f endpoint update (registeredConfig f endpoint update c)
  = registeredConfig f endpoint update c.
Proof. by destruct f, update. Qed.

Lemma remote_afterSet_twice project c c' w :
  remote (afterSet project c (afterSet project c' w)) = remote (afterSet project c w).
Proof. unfold afterSet; simpl. by rewrite insert_insert_eq. Qed.

(** X12: unregistering the same endpoint a second time does nothing: the two
    calls in a row end as one call does, on every path. *)
Theorem unregister_idempotent (E : events.Names) (endpoint : BlockingEndpoint) (w : World) :
  (unregisterAuthBlockingTriggerFromIdentityPlatform E endpoint ;;;
   unregisterAuthBlockingTriggerFromIdentityPlatform E endpoint) w
  = unregisterAuthBlockingTriggerFromIdentityPlatform E endpoint w.
Proof.
  unfold bind. rewrite (unregister_cases E endpoint w).
  destruct (dispatchOf E _) as [f|] eqn:Hd; [|done].
  destruct (notRegistered _ _) eqn:Hn.
  - rewrite unregister_cases, Hd. by rewrite Hn.
  - rewrite unregister_cases, Hd, configOf_afterSet, slotOf_unregisteredConfig.
    by rewrite notRegistered_emptyDetails.
Qed.

(** X13: registering the same endpoint a second time, with the same update
    flag, writes the same config again: the remote state is that of one
    call, on every path. *)
Theorem register_idempotent_on_remote
  (E : events.Names) (endpoint : BlockingEndpoint) (update : bool) (w : World) :
  let once := registerAuthBlockingTriggerToIdentityPlatform E endpoint update w in
  let twice :=
    (registerAuthBlockingTriggerToIdentityPlatform E endpoint update ;;;
     registerAuthBlockingTriggerToIdentityPlatform E endpoint update) w in
  twice.1 = once.1 ∧ remote twice.2 = remote once.2.
Proof.
  unfold bind. rewrite (register_cases E endpoint update w).
  destruct (dispatchOf E _) as [f|] eqn:Hd; [|done].
  rewrite register_cases, Hd, configOf_afterSet, registeredConfig_twice.
  split; [done|]. apply remote_afterSet_twice.
Qed.

(** X14: a stale unregistration is harmless: once a second endpoint of the
    same family and project, with another uri, has been registered over
    the first, unregistering the first writes nothing, and the slot keeps
    the uri of the second. *)
Theorem stale_unregister_keeps_newer_registration
  (E : events.Names) (f : Family) (e1 e2 : BlockingEndpoint) (u1 u2 : bool) (w : World) :
  (f = BeforeSignIn → events.families_disjoint E) →
  inFamily E f (eventType (blockingTrigger e1)) →
  inFamily E f (eventType (blockingTrigger e2)) →
  b_project e1 = b_project e2 →
  b_uri e1 ≠ b_uri e2 →
  ∃ w',
    (registerAuthBlockingTriggerToIdentityPlatform E e1 u1 ;;;
     registerAuthBlockingTriggerToIdentityPlatform E e2 u2) w = (Returned tt, w') ∧
    unregisterAuthBlockingTriggerFromIdentityPlatform E e1 w' = (Returned tt, w') ∧
    slotOf f (configOf w' (b_project e2)) = Some (MkDetails (b_uri e2)).
Proof.
  intros Hdis Hin1 Hin2 Hproj Huri.
  eexists. split; [|split].
  - unfold bind. rewrite (register_cases E e1), (dispatchOf_in_family E f) by done.
    cbv beta iota. rewrite register_cases, (dispatchOf_in_family E f) by done.
    reflexivity.
  - rewrite unregister_cases, (dispatchOf_in_family E f), Hproj, configOf_afterSet by done.
    rewrite notRegistered_true; [done|]. right.
    rewrite (proj1 (slotOf_registeredConfig _ _ _ _)). simpl. congruence.
  - rewrite configOf_afterSet. apply slotOf_registeredConfig.
Qed.

Lemma stale_unregister_keeps_newer_registration_witness :
  let e1 := sampleBlocking "old" "v1.beforeCreate" (Some "https://old") None None None in
  let e2 := sampleBlocking "new" "v2.beforeCreate" (Some "https://new") None None None in
  ∃ w',
    (registerAuthBlockingTriggerToIdentityPlatform sampleNames e1 false ;;;
     registerAuthBlockingTriggerToIdentityPlatform sampleNames e2 false) emptyWorld
    = (Returned tt, w') ∧
    unregisterAuthBlockingTriggerFromIdentityPlatform sampleNames e1 w' = (Returned tt, w') ∧
    beforeCreateOf (configOf w' "demo-project") = Some (MkDetails (Some "https://new")).
Proof.
  intros e1 e2.
  apply (stale_unregister_keeps_newer_registration sampleNames BeforeCreate e1 e2
           false false emptyWorld).
  - intros Hf. discriminate Hf.
  - left. reflexivity.
  - right. reflexivity.
  - reflexivity.
  - simpl. discriminate.
Defined.

(** X15: within a family the version of the event type makes no
    difference: an endpoint and its twin under the other name of the family
    register and unregister alike, so what one registered the other can
    unregister. *)
Theorem registrar_ignores_version
  (E : events.Names) (f : Family) (endpoint : BlockingEndpoint) (eventType' : string)
  (update : bool) (w : World) :
  (f = BeforeSignIn → events.families_disjoint E) →
  inFamily E f (eventType (blockingTrigger endpoint)) →
  inFamily E f eventType' →
  registerAuthBlockingTriggerToIdentityPlatform E (withEventType eventType' endpoint) update w
  = registerAuthBlockingTriggerToIdentityPlatform E endpoint update w ∧
  unregisterAuthBlockingTriggerFromIdentityPlatform E (withEventType eventType' endpoint) w
  = unregisterAuthBlockingTriggerFromIdentityPlatform E endpoint w.
Proof.
  intros Hdis Hin Hin'.
  rewrite !register_cases, !unregister_cases.
  rewrite (dispatchOf_in_family E f (eventType (blockingTrigger endpoint))) by done.
  rewrite (dispatchOf_in_family E f
             (eventType (blockingTrigger (withEventType eventType' endpoint)))) by done.
  by destruct endpoint as [i p u [et a t r]].
Qed.

Lemma registrar_ignores_version_witness :
  let s := sampleBlocking "s" "v1.beforeSignIn" (Some "https://s") None None None in
  registerAuthBlockingTriggerToIdentityPlatform sampleNames
    (withEventType "v2.beforeSignIn" s) false takenWorld
  = registerAuthBlockingTriggerToIdentityPlatform sampleNames s false takenWorld ∧
  unregisterAuthBlockingTriggerFromIdentityPlatform sampleNames
    (withEventType "v2.beforeSignIn" s) takenWorld
  = unregisterAuthBlockingTriggerFromIdentityPlatform sampleNames s takenWorld.
Proof.
  intros s.
  apply (registrar_ignores_version sampleNames BeforeSignIn s "v2.beforeSignIn"
           false takenWorld).
  - intros _. repeat split; simpl; discriminate.
  - left. reflexivity.
  - right. reflexivity.
Defined.

(** X16: an endpoint without a uri, or with the empty uri, cannot be
    unregistered: after its registration the unregistration writes nothing,
    on every path. *)
Theorem unregister_needs_nonempty_uri
  (E : events.Names) (endpoint : BlockingEndpoint) (update : bool) (w : World) :
  b_uri endpoint = None ∨ b_uri endpoint = Some "" →
  (registerAuthBlockingTriggerToIdentityPlatform E endpoint update ;;;
   unregisterAuthBlockingTriggerFromIdentityPlatform E endpoint) w
  = registerAuthBlockingTriggerToIdentityPlatform E endpoint update w.
Proof.
  intros Huri. unfold bind. rewrite register_cases.
  destruct (dispatchOf E _) as [f|] eqn:Hd; [|done].
  rewrite unregister_cases, Hd, configOf_afterSet.
  rewrite (proj1 (slotOf_registeredConfig _ _ _ _)).
  assert (notRegistered endpoint (Some (MkDetails (b_uri endpoint))) = true) as ->; [|done].
  unfold notRegistered; simpl. by destruct Huri as [->| ->].
Qed.

Lemma unregister_needs_nonempty_uri_witness :
  let a := sampleBlocking "a" "v1.beforeCreate" None None None None in
  (registerAuthBlockingTriggerToIdentityPlatform sampleNames a false ;;;
   unregisterAuthBlockingTriggerFromIdentityPlatform sampleNames a) takenWorld
  = registerAuthBlockingTriggerToIdentityPlatform sampleNames a false takenWorld.
Proof.
  intros a.
  apply (unregister_needs_nonempty_uri sampleNames a false takenWorld).
  left. reflexivity.
Defined.

Lemma copy_fields endpoint wantBackend :
  b_project (copyIdentityPlatformOptionsToEndpoint endpoint wantBackend) = b_project endpoint ∧
  b_uri (copyIdentityPlatformOptionsToEndpoint endpoint wantBackend) = b_uri endpoint ∧
  eventType (blockingTrigger (copyIdentityPlatformOptionsToEndpoint endpoint wantBackend))
  = eventType (blockingTrigger endpoint).
Proof. by destruct endpoint as [i p u [et a t r]]. Qed.

Lemma forwardOf_copy endpoint wantBackend :
  forwardOf (copyIdentityPlatformOptionsToEndpoint endpoint wantBackend)
  = MkForward (toString (ip_idToken (optionsRead wantBackend)))
              (toString (ip_accessToken (optionsRead wantBackend)))
              (toString (ip_refreshToken (optionsRead wantBackend))).
Proof. unfold forwardOf. by rewrite copy_blockingTrigger. Qed.

Lemma registeredConfig_commute a b ua ub c :
  forwardOf a = forwardOf b →
  registeredConfig BeforeSignIn b ub (registeredConfig BeforeCreate a ua c)
  = registeredConfig BeforeCreate a ua (registeredConfig BeforeSignIn b ub c).
Proof.
  intros Hfw. unfold registeredConfig. destruct ua, ub; simpl; try done.
  by rewrite Hfw.
Qed.

Lemma triggers_registeredConfig_both a b ua ub c :
  triggers (registeredConfig BeforeSignIn b ub (registeredConfig BeforeCreate a ua c))
  = Some (MkTriggers (Some (MkDetails (b_uri a))) (Some (MkDetails (b_uri b)))).
Proof. by destruct ua, ub. Qed.

(** X17: once [copyIdentityPlatformOptionsToEndpoint] has given the
    before-create and the before-sign-in endpoint of a project the flags of
    the plan, the order in which the two are registered does not matter:
    both orders return and leave the same remote state, with both slots
    holding the uri of their endpoint. *)
Theorem register_order_irrelevant_after_copy
  (E : events.Names) (ec es : BlockingEndpoint) (wantBackend : Backend)
  (uc us : bool) (w : World) :
  events.families_disjoint E →
  beforeCreateFamily E (eventType (blockingTrigger ec)) →
  beforeSignInFamily E (eventType (blockingTrigger es)) →
  b_project ec = b_project es →
  let ec' := copyIdentityPlatformOptionsToEndpoint ec wantBackend in
  let es' := copyIdentityPlatformOptionsToEndpoint es wantBackend in
  let createFirst :=
    (registerAuthBlockingTriggerToIdentityPlatform E ec' uc ;;;
     registerAuthBlockingTriggerToIdentityPlatform E es' us) w in
  let signInFirst :=
    (registerAuthBlockingTriggerToIdentityPlatform E es' us ;;;
     registerAuthBlockingTriggerToIdentityPlatform E ec' uc) w in
  createFirst.1 = Returned tt ∧ signInFirst.1 = Returned tt ∧
  remote createFirst.2 = remote signInFirst.2 ∧
  triggers (configOf createFirst.2 (b_project ec))
  = Some (MkTriggers (Some (MkDetails (b_uri ec))) (Some (MkDetails (b_uri es)))).
Proof.
  intros Hdis Hc Hs Hproj ec' es' createFirst signInFirst.
  destruct (copy_fields ec wantBackend) as (Hpc & Huc & Hec).
  destruct (copy_fields es wantBackend) as (Hps & Hus & Hes).
  fold ec' in Hpc, Huc, Hec. fold es' in Hps, Hus, Hes.
  assert (dispatchOf E (eventType (blockingTrigger ec')) = Some BeforeCreate) as Hdc.
  { rewrite Hec. by apply (dispatchOf_in_family E BeforeCreate). }
  assert (dispatchOf E (eventType (blockingTrigger es')) = Some BeforeSignIn) as Hds.
  { rewrite Hes. by apply (dispatchOf_in_family E BeforeSignIn). }
  assert (forwardOf ec' = forwardOf es') as Hfw.
  { unfold ec', es'. by rewrite !forwardOf_copy. }
  assert (createFirst
          = (Returned tt,
             afterSet (b_project ec)
               (registeredConfig BeforeSignIn es' us
                  (registeredConfig BeforeCreate ec' uc (configOf w (b_project ec))))
               (afterSet (b_project ec)
                  (registeredConfig BeforeCreate ec' uc (configOf w (b_project ec))) w)))
    as ->.
  { unfold createFirst, bind. rewrite (register_cases E ec'), Hdc. cbv beta iota.
    rewrite register_cases, Hds, Hpc, Hps, <- Hproj. by rewrite configOf_afterSet. }
  assert (signInFirst
          = (Returned tt,
             afterSet (b_project ec)
               (registeredConfig BeforeCreate ec' uc
                  (registeredConfig BeforeSignIn es' us (configOf w (b_project ec))))
               (afterSet (b_project ec)
                  (registeredConfig BeforeSignIn es' us (configOf w (b_project ec))) w)))
    as ->.
  { unfold signInFirst, bind. rewrite (register_cases E es'), Hds. cbv beta iota.
    rewrite register_cases, Hdc, Hpc, Hps, <- Hproj. by rewrite configOf_afterSet. }
  split; [done|]. split; [done|]. split.
  - unfold snd. rewrite !remote_afterSet_twice.
    by rewrite (registeredConfig_commute _ _ _ _ _ Hfw).
  - unfold snd. rewrite configOf_afterSet, triggers_registeredConfig_both.
    by rewrite Huc, Hus.
Qed.

Lemma register_order_irrelevant_after_copy_witness :
  let ec := sampleBlocking "c" "v1.beforeCreate" (Some "https://c") (Some true) None None in
  let es := sampleBlocking "s" "v2.beforeSignIn" (Some "https://s") None None (Some true) in
  let plan := MkBackend [ofBlocking ec; ofBlocking es]
                (MkResourceOptions (Some (MkIdentityPlatformOptions true false true))) in
  let ec' := copyIdentityPlatformOptionsToEndpoint ec plan in
  let es' := copyIdentityPlatformOptionsToEndpoint es plan in
  let createFirst :=
    (registerAuthBlockingTriggerToIdentityPlatform sampleNames ec' false ;;;
     registerAuthBlockingTriggerToIdentityPlatform sampleNames es' false) emptyWorld in
  let signInFirst :=
    (registerAuthBlockingTriggerToIdentityPlatform sampleNames es' false ;;;
     registerAuthBlockingTriggerToIdentityPlatform sampleNames ec' false) emptyWorld in
  createFirst.1 = Returned tt ∧ signInFirst.1 = Returned tt ∧
  remote createFirst.2 = remote signInFirst.2 ∧
  triggers (configOf createFirst.2 "demo-project")
  = Some (MkTriggers (Some (MkDetails (Some "https://c")))
                     (Some (MkDetails (Some "https://s")))).
Proof.
  intros ec es plan.
  apply (register_order_irrelevant_after_copy sampleNames ec es plan false false emptyWorld).
  - repeat split; simpl; discriminate.
  - left. reflexivity.
  - right. reflexivity.
  - reflexivity.
Defined.

(** Without the copy the order shows: the forwarding flags are those of the
    endpoint registered last. *)
Example scenario_order_shows_without_copy :
  let ec := sampleBlocking "c" "v1.beforeCreate" (Some "https://c") (Some true) None None in
  let es := sampleBlocking "s" "v1.beforeSignIn" (Some "https://s") None None (Some true) in
  let createFirst :=
    (registerAuthBlockingTriggerToIdentityPlatform sampleNames ec false ;;;
     registerAuthBlockingTriggerToIdentityPlatform sampleNames es false) emptyWorld in
  let signInFirst :=
    (registerAuthBlockingTriggerToIdentityPlatform sampleNames es false ;;;
     registerAuthBlockingTriggerToIdentityPlatform sampleNames ec false) emptyWorld in
  forwardInboundCredentials (configOf createFirst.2 "demo-project")
  = Some (MkForward "false" "false" "true") ∧
  forwardInboundCredentials (configOf signInFirst.2 "demo-project")
  = Some (MkForward "false" "true" "false").
Proof. vm_compute. done. Qed.
